(** * gh-release-update-notifier: the ReleaseNotifier class

    A shallow embedding of [ReleaseNotifier] (the class of the library's
    index module, with the interfaces of [src/types.ts]) and the properties
    of its release resolution, version check and two-tier cache.

    Conventions of the embedding:
    - a JavaScript string is the list of its UTF-16 code units;
    - a JavaScript number that holds a time in milliseconds, an interval or
      a counter is an integer ([Z]); the one non-integer value the code can
      meet, the [NaN] of an invalid [Date], is [None];
    - [async] methods are run to completion: a method is a function from the
      answers of the outside world during the call (clock, network reply,
      whether the disk accepts a write) and the state before, to an outcome
      (a returned value or a thrown error) and the state after;
    - the methods are embedded at the types that the class declares for its
      fields; construction, which assigns to the cache fields what
      [JSON.parse] found in the cache file, is embedded on JavaScript
      values, and [typed] relates the two. *)

From Stdlib Require Import List ZArith NArith Bool Lia String Ascii.
From Stdlib Require Import Sorted Permutation DecimalString.
Import ListNotations.
Open Scope Z_scope.
#[local] Set Warnings "-register-all".

(* ===================================================================== *)
(** ** JavaScript strings *)
(* ===================================================================== *)

Definition jsstring := list N.

(** The code units of an ASCII literal. *)
Fixpoint js (s : string) : jsstring :=
  match s with
  | EmptyString => []
  | String c s' => N_of_ascii c :: js s'
  end.

Fixpoint jsstring_eqb (a b : jsstring) : bool :=
  match a, b with
  | [], [] => true
  | x :: a', y :: b' => N.eqb x y && jsstring_eqb a' b'
  | _, _ => false
  end.

(** [WhiteSpace] and [LineTerminator] of ECMAScript: what [trim] removes. *)
Definition isWhiteSpace (c : N) : bool :=
  ((9 <=? c) && (c <=? 13) ||
   (c =? 32) || (c =? 160) || (c =? 5760) ||
   (8192 <=? c) && (c <=? 8202) ||
   (c =? 8232) || (c =? 8233) || (c =? 8239) || (c =? 8287) ||
   (c =? 12288) || (c =? 65279))%N.

Fixpoint trimStart (s : jsstring) : jsstring :=
  match s with
  | c :: s' => if isWhiteSpace c then trimStart s' else s
  | [] => []
  end.

Definition trimEnd (s : jsstring) : jsstring := rev (trimStart (rev s)).

Definition trim (s : jsstring) : jsstring := trimEnd (trimStart s).

(** [s.replace(/^v/i, '')]: one leading [v] or [V] is removed. *)
Definition stripLeadingV (s : jsstring) : jsstring :=
  match s with
  | c :: s' => if ((c =? 118) || (c =? 86))%N then s' else s
  | [] => []
  end.

(** [normalizeVersion(version)]: [version.trim().replace(/^v/i, '')]. *)
Definition normalizeVersion (version : jsstring) : jsstring :=
  stripLeadingV (trim version).

(** Decimal digits of a number inside a template string. *)
Definition numberToString (n : Z) : jsstring :=
  match n with
  | Zneg _ => js "-" ++ js (NilZero.string_of_uint (N.to_uint (Z.to_N (- n))))
  | _ => js (NilZero.string_of_uint (N.to_uint (Z.to_N n)))
  end.

(* ===================================================================== *)
(** ** The interfaces of types.ts *)
(* ===================================================================== *)

(** [GitHubReleaseResponse]: a release as the API lists it. *)
Record GitHubReleaseResponse := mkResponse {
  tag_name : jsstring;
  name : option jsstring;
  html_url : jsstring;
  published_at : jsstring;
  prerelease : bool;
  draft : bool
}.

(** [Release]: what the public methods hand out. *)
Module Release.
Record t := make {
  tagName : jsstring;
  name : option jsstring;
  prerelease : bool;
  draft : bool;
  htmlUrl : jsstring;
  publishedAt : jsstring
}.
End Release.

Record VersionCheckResult := mkResult {
  updateAvailable : bool;
  currentVersion : jsstring;
  latestVersion : option jsstring;
  latestRelease : option Release.t
}.

Module Config.
Record t := make {
  repo : jsstring;
  checkInterval : option Z;
  cacheFilePath : option jsstring;
  token : option jsstring
}.
End Config.

(** The object literal that all three methods build from a raw release. *)
Definition toRelease (r : GitHubReleaseResponse) : Release.t :=
  {| Release.tagName := tag_name r;
     Release.name := name r;
     Release.prerelease := prerelease r;
     Release.draft := draft r;
     Release.htmlUrl := html_url r;
     Release.publishedAt := published_at r |}.

(* ===================================================================== *)
(** ** Dates *)
(* ===================================================================== *)

(** [new Date(s).getTime()]: the time value of a date string in milliseconds
    since the epoch, [None] for the [NaN] of an invalid date.  The parser is
    the platform's; the class below is all the notifier relies on. *)
Class DateParser := getTime : jsstring -> option Z.

(** One parser, used in the examples: the UTC format of GitHub's API,
    [YYYY-MM-DDTHH:MM:SSZ]. *)
Definition digit (c : N) : option Z :=
  if ((48 <=? c) && (c <=? 57))%N then Some (Z.of_N c - 48) else None.

Fixpoint digits (acc : Z) (s : jsstring) : option Z :=
  match s with
  | [] => Some acc
  | c :: s' =>
      match digit c with
      | Some d => digits (10 * acc + d) s'
      | None => None
      end
  end.

Definition isLeapYear (y : Z) : bool :=
  (y mod 4 =? 0) && (negb (y mod 100 =? 0) || (y mod 400 =? 0)).

Definition daysInMonth (y m : Z) : Z :=
  if m =? 2 then (if isLeapYear y then 29 else 28)
  else if (m =? 4) || (m =? 6) || (m =? 9) || (m =? 11) then 30
  else 31.

(** Days from 1970-01-01 to the civil date [y]-[m]-[d]. *)
Definition daysFromCivil (y m d : Z) : Z :=
  let y' := if m <=? 2 then y - 1 else y in
  let era := y' / 400 in
  let yoe := y' - era * 400 in
  let doy := (153 * (if 2 <? m then m - 3 else m + 9) + 2) / 5 + d - 1 in
  let doe := yoe * 365 + yoe / 4 - yoe / 100 + doy in
  era * 146097 + doe - 719468.

Definition isoTime (s : jsstring) : option Z :=
  match s with
  | [y1; y2; y3; y4; 45; m1; m2; 45; d1; d2; 84; h1; h2; 58; i1; i2; 58; s1; s2; 90]%N =>
      match digits 0 [y1; y2; y3; y4], digits 0 [m1; m2], digits 0 [d1; d2],
            digits 0 [h1; h2], digits 0 [i1; i2], digits 0 [s1; s2] with
      | Some y, Some m, Some d, Some h, Some i, Some sec =>
          if (1 <=? m) && (m <=? 12) && (1 <=? d) && (d <=? daysInMonth y m)
             && (h <=? 23) && (i <=? 59) && (sec <=? 59)
          then Some ((((daysFromCivil y m d * 24 + h) * 60 + i) * 60 + sec) * 1000)
          else None
      | _, _, _, _, _, _ => None
      end
  | _ => None
  end.

Definition isoDate : DateParser := isoTime.

(* ===================================================================== *)
(** ** Sorting, as [Array.prototype.sort] does with a comparator *)
(* ===================================================================== *)

(** [Array.prototype.sort] is stable, and reads a comparator's [NaN] as
    [+0].  For a consistent comparator the result of a stable sort is
    unique; inserting from the right computes it.  (When a comparator is not
    consistent the standard leaves the order to the engine: here that is the
    case of a list holding an invalid date.) *)
Section Sort.
Context {A : Type} (comparefn : A -> A -> option Z).

Definition sortCompare (x y : A) : Z :=
  match comparefn x y with
  | Some v => v
  | None => 0
  end.

Fixpoint sortInsert (x : A) (l : list A) : list A :=
  match l with
  | [] => [x]
  | y :: l' => if sortCompare x y <=? 0 then x :: l else y :: sortInsert x l'
  end.

Definition Array_sort (l : list A) : list A := fold_right sortInsert [] l.

End Sort.

(* ===================================================================== *)
(** ** JavaScript values, JSON and the cache file *)
(* ===================================================================== *)

(** The values [JSON.parse] builds, and [undefined], which reading a missing
    property gives.  An object lists its properties in order; the numbers
    are the integers, which is what a fetch time is. *)
Inductive JSValue :=
| VUndefined
| VNull
| VBool (b : bool)
| VNumber (n : Z)
| VString (s : jsstring)
| VArray (elements : list JSValue)
| VObject (properties : list (jsstring * JSValue)).

Fixpoint lookupProperty (key : jsstring) (props : list (jsstring * JSValue)) : JSValue :=
  match props with
  | [] => VUndefined
  | (k, v) :: props' => if jsstring_eqb k key then v else lookupProperty key props'
  end.

(** [v.key] for a key that no prototype defines: a [TypeError] ([None]) on
    [null] and [undefined], the own property of an object, and [undefined]
    on every other value. *)
Definition getProperty (v : JSValue) (key : jsstring) : option JSValue :=
  match v with
  | VUndefined | VNull => None
  | VObject props => Some (lookupProperty key props)
  | _ => Some VUndefined
  end.

(** The file at [cacheFilePath], by what reading and parsing it does. *)
Inductive DiskFile :=
| FileMissing                 (* existsSync is false *)
| FileUnreadable              (* readFileSync throws *)
| FileUnparsable              (* JSON.parse throws on the text read *)
| FileJson (parsed : JSValue) (* JSON.parse of the text read gives [parsed] *).

(** [CacheData], and the value [JSON.stringify] writes for it (read back by
    [JSON.parse]). *)
Record CacheData := mkCacheData {
  cd_lastFetchTime : Z;
  cd_releases : list GitHubReleaseResponse
}.

Definition optionalString (s : option jsstring) : JSValue :=
  match s with
  | Some x => VString x
  | None => VNull
  end.

(** A release as an object of the properties that the interface declares
    (the API sends more, which the notifier never reads). *)
Definition releaseToJson (r : GitHubReleaseResponse) : JSValue :=
  VObject [ (js "tag_name", VString (tag_name r));
            (js "name", optionalString (name r));
            (js "html_url", VString (html_url r));
            (js "published_at", VString (published_at r));
            (js "prerelease", VBool (prerelease r));
            (js "draft", VBool (draft r)) ].

Definition cacheToJson (c : CacheData) : JSValue :=
  VObject [ (js "lastFetchTime", VNumber (cd_lastFetchTime c));
            (js "releases", VArray (map releaseToJson (cd_releases c))) ].

(** A JavaScript value seen at the type [GitHubReleaseResponse]. *)
Definition releaseOfJson (v : JSValue) : option GitHubReleaseResponse :=
  match v with
  | VObject props =>
      match lookupProperty (js "tag_name") props,
            lookupProperty (js "name") props,
            lookupProperty (js "html_url") props,
            lookupProperty (js "published_at") props,
            lookupProperty (js "prerelease") props,
            lookupProperty (js "draft") props with
      | VString t, VString n, VString u, VString p, VBool pre, VBool d =>
          Some (mkResponse t (Some n) u p pre d)
      | VString t, VNull, VString u, VString p, VBool pre, VBool d =>
          Some (mkResponse t None u p pre d)
      | _, _, _, _, _, _ => None
      end
  | _ => None
  end.

Fixpoint releasesOfJson (l : list JSValue) : option (list GitHubReleaseResponse) :=
  match l with
  | [] => Some []
  | v :: l' =>
      match releaseOfJson v, releasesOfJson l' with
      | Some r, Some rs => Some (r :: rs)
      | _, _ => None
      end
  end.

(** A JavaScript value seen at the type [CacheData]: a well-formed persisted
    entry. *)
Definition cacheOfJson (v : JSValue) : option CacheData :=
  match v with
  | VObject props =>
      match lookupProperty (js "lastFetchTime") props,
            lookupProperty (js "releases") props with
      | VNumber t, VArray l =>
          match releasesOfJson l with
          | Some rs => Some (mkCacheData t rs)
          | None => None
          end
      | _, _ => None
      end
  | _ => None
  end.

(* ===================================================================== *)
(** ** The notifier, the outside world, outcomes *)
(* ===================================================================== *)

(** The fields of a [ReleaseNotifier], at their declared types. *)
Record ReleaseNotifier := mkNotifier {
  repo : jsstring;
  checkInterval : Z;
  cacheFilePath : option jsstring;
  token : option jsstring;
  cachedReleases : option (list GitHubReleaseResponse);
  lastFetchTime : Z
}.

(** The same object as JavaScript holds it right after construction: the two
    cache fields are whatever was assigned to them. *)
Record NotifierObject := mkObject {
  o_repo : jsstring;
  o_checkInterval : Z;
  o_cacheFilePath : option jsstring;
  o_token : option jsstring;
  o_cachedReleases : JSValue;
  o_lastFetchTime : JSValue
}.

(** A request sent to the release source. *)
Record Request := mkRequest {
  url : jsstring;
  headers : list (jsstring * jsstring)
}.

(** What the release source answers to a request. *)
Inductive FetchReply :=
| FetchRejected (message : jsstring)                  (* fetch() rejects *)
| ResponseNotOk (status : Z) (statusText : jsstring)  (* response.ok is false *)
| ResponseNotJson (message : jsstring)                (* response.json() rejects *)
| ResponseOk (releases : list GitHubReleaseResponse).

(** The answers of the outside world during one call: the clock read by
    [Date.now()], the reply to a request if one is sent, and the error of
    [writeFileSync] if the disk refuses the write. *)
Record Env := mkEnv {
  now : Z;
  reply : FetchReply;
  writeError : option jsstring
}.

(** What a call can change: the notifier's fields, the cache file, and the
    requests sent to the release source so far (latest first). *)
Record World := mkWorld {
  self : ReleaseNotifier;
  disk : DiskFile;
  requests : list Request
}.

Inductive Outcome (A : Type) :=
| Returned (a : A)
| Threw (message : jsstring).
Arguments Returned {A} a.
Arguments Threw {A} message.

(** [!this.cacheFilePath] is true of [null] and of the empty string. *)
Definition pathConfigured (p : option jsstring) : bool :=
  match p with
  | Some (_ :: _) => true
  | _ => false
  end.

Definition setCache (n : ReleaseNotifier)
  (rs : option (list GitHubReleaseResponse)) (t : Z) : ReleaseNotifier :=
  {| repo := repo n; checkInterval := checkInterval n;
     cacheFilePath := cacheFilePath n; token := token n;
     cachedReleases := rs; lastFetchTime := t |}.

(* ===================================================================== *)
(** ** Loading and saving the cache file *)
(* ===================================================================== *)

(** The [try] block of [loadCacheFromDisk]: the values the two fields hold
    when it completes, from their values [before]; [Threw] when it throws. *)
Definition loadCacheFromDisk_try (d : DiskFile) (before : JSValue * JSValue)
  : Outcome (JSValue * JSValue) :=
  match d with
  | FileMissing => Returned before
  | FileUnreadable => Threw (js "readFileSync failed")
  | FileUnparsable => Threw (js "Unexpected token in JSON")
  | FileJson cache =>
      match getProperty cache (js "releases") with
      | None => Threw (js "Cannot read properties of null")
      | Some releases =>
          match getProperty cache (js "lastFetchTime") with
          | None => Threw (js "Cannot read properties of null")
          | Some t => Returned (releases, t)
          end
      end
  end.

(** [loadCacheFromDisk()]: the values of [cachedReleases] and
    [lastFetchTime] after the call, from their values before it. *)
Definition loadCacheFromDisk (path : option jsstring) (d : DiskFile)
  (before : JSValue * JSValue) : JSValue * JSValue :=
  if negb (pathConfigured path) then before
  else
    match loadCacheFromDisk_try d before with
    | Returned fields => fields
    | Threw _ => (VNull, VNumber 0)
    end.

(** [new ReleaseNotifier(config)]. *)
Definition constructor (config : Config.t) (d : DiskFile) : NotifierObject :=
  let interval :=
    match Config.checkInterval config with
    | Some i => i
    | None => 3600000
    end in
  let fields := loadCacheFromDisk (Config.cacheFilePath config) d (VNull, VNumber 0) in
  {| o_repo := Config.repo config;
     o_checkInterval := interval;
     o_cacheFilePath := Config.cacheFilePath config;
     o_token := Config.token config;
     o_cachedReleases := fst fields;
     o_lastFetchTime := snd fields |}.

(** The constructed object at the types the class declares, when the two
    cache fields have them. *)
Definition typed (o : NotifierObject) : option ReleaseNotifier :=
  match o_cachedReleases o, o_lastFetchTime o with
  | VNull, VNumber t =>
      Some (mkNotifier (o_repo o) (o_checkInterval o) (o_cacheFilePath o) (o_token o) None t)
  | VArray l, VNumber t =>
      match releasesOfJson l with
      | Some rs =>
          Some (mkNotifier (o_repo o) (o_checkInterval o) (o_cacheFilePath o) (o_token o)
                  (Some rs) t)
      | None => None
      end
  | _, _ => None
  end.

(** [writeFileSync(path, JSON.stringify(cache), 'utf-8')]. *)
Definition writeFileSync (e : Env) (data : JSValue) (d : DiskFile)
  : Outcome unit * DiskFile :=
  match writeError e with
  | None => (Returned tt, FileJson data)
  | Some message => (Threw message, d)
  end.

(** [saveCacheToDisk()]. *)
Definition saveCacheToDisk (e : Env) (w : World) : World :=
  if negb (pathConfigured (cacheFilePath (self w))) then w
  else
    let cache :=
      match cachedReleases (self w) with
      | None => {| cd_lastFetchTime := 0; cd_releases := [] |}
      | Some rs => {| cd_lastFetchTime := lastFetchTime (self w); cd_releases := rs |}
      end in
    match writeFileSync e (cacheToJson cache) (disk w) with
    | (Returned _, d) => mkWorld (self w) d (requests w)
    | (Threw _, d) => mkWorld (self w) d (requests w)   (* silently fail *)
    end.

(** [clearCache()]. *)
Definition clearCache (e : Env) (w : World) : World :=
  saveCacheToDisk e (mkWorld (setCache (self w) None 0) (disk w) (requests w)).

(* ===================================================================== *)
(** ** The methods *)
(* ===================================================================== *)

Section Methods.
Context {D : DateParser}.

(** [isVersionOlder(date1, date2)]; a comparison with [NaN] is false. *)
Definition isVersionOlder (date1 date2 : jsstring) : bool :=
  match getTime date1, getTime date2 with
  | Some t1, Some t2 => t1 <? t2
  | _, _ => false
  end.

(** The comparator of [releases.sort]:
    [new Date(b.published_at).getTime() - new Date(a.published_at).getTime()]. *)
Definition byPublishedDesc (a b : GitHubReleaseResponse) : option Z :=
  match getTime (published_at b), getTime (published_at a) with
  | Some tb, Some ta => Some (tb - ta)
  | _, _ => None
  end.

Definition requestFor (n : ReleaseNotifier) : Request :=
  {| url := js "https://api.github.com/repos/" ++ repo n ++ js "/releases";
     headers :=
       [ (js "Accept", js "application/vnd.github+json");
         (js "X-GitHub-Api-Version", js "2022-11-28") ]
       ++ match token n with
          | Some (c :: t) => [ (js "Authorization", js "Bearer " ++ c :: t) ]
          | _ => []
          end |}.

(** [fetchAllReleases()] past its cache test: the request, the sort, the
    store in memory and on disk. *)
Definition fetchFromSource (e : Env) (w : World)
  : Outcome (list GitHubReleaseResponse) * World :=
  let sent := mkWorld (self w) (disk w) (requestFor (self w) :: requests w) in
  match reply e with
  | FetchRejected message => (Threw message, sent)
  | ResponseNotOk status statusText =>
      (Threw (js "GitHub API error: " ++ numberToString status
              ++ js " " ++ statusText), sent)
  | ResponseNotJson message => (Threw message, sent)
  | ResponseOk body =>
      let releases := Array_sort byPublishedDesc body in
      let stored :=
        mkWorld (setCache (self sent) (Some releases) (now e))
                (disk sent) (requests sent) in
      (Returned releases, saveCacheToDisk e stored)
  end.

(** [fetchAllReleases()]. *)
Definition fetchAllReleases (e : Env) (w : World)
  : Outcome (list GitHubReleaseResponse) * World :=
  match cachedReleases (self w) with
  | Some cached =>
      if (0 <? checkInterval (self w))
         && (now e - lastFetchTime (self w) <? checkInterval (self w))
      then (Returned cached, w)
      else fetchFromSource e w
  | None => fetchFromSource e w
  end.

(** The filter of [getLatestRelease]. *)
Definition validRelease (includePrerelease : bool) (release : GitHubReleaseResponse)
  : bool :=
  if draft release then false
  else if negb includePrerelease && prerelease release then false
  else true.

(** [getLatestRelease(includePrerelease)]. *)
Definition getLatestRelease (e : Env) (w : World) (includePrerelease : bool)
  : Outcome (option Release.t) * World :=
  match fetchAllReleases e w with
  | (Returned releases, w') =>
      let validReleases := filter (validRelease includePrerelease) releases in
      match validReleases with
      | [] => (Returned None, w')
      | latest :: _ => (Returned (Some (toRelease latest)), w')
      end
  | (Threw message, w') =>
      (Threw (js "Failed to fetch releases: " ++ message), w')
  end.

(** [getLatestPrerelease()]. *)
Definition getLatestPrerelease (e : Env) (w : World)
  : Outcome (option Release.t) * World :=
  match fetchAllReleases e w with
  | (Returned releases, w') =>
      match find (fun release => prerelease release && negb (draft release)) releases with
      | None => (Returned None, w')
      | Some prerelease => (Returned (Some (toRelease prerelease)), w')
      end
  | (Threw message, w') =>
      (Threw (js "Failed to fetch prereleases: " ++ message), w')
  end.

(** The two searches of [checkVersion]: [currentRelease] ... *)
Definition findCurrentRelease (currentVersion : jsstring)
  (releases : list GitHubReleaseResponse) : option GitHubReleaseResponse :=
  let normalizedCurrent := normalizeVersion currentVersion in
  find (fun r =>
          jsstring_eqb (normalizeVersion (tag_name r)) normalizedCurrent
          || jsstring_eqb (tag_name r) currentVersion)
       releases.

(** ... and [latestRelease], the release the version is measured against. *)
Definition findLatestRelease (isPrerelease : bool)
  (releases : list GitHubReleaseResponse) : option GitHubReleaseResponse :=
  if isPrerelease
  then find (fun r => prerelease r && negb (draft r)) releases
  else find (fun r => negb (prerelease r) && negb (draft r)) releases.

(** The body of [checkVersion] once the releases are there. *)
Definition checkVersionAgainst (releases : list GitHubReleaseResponse)
  (currentVersion : jsstring) (isPrerelease : bool) : VersionCheckResult :=
  if (List.length releases =? 0)%nat
  then mkResult false currentVersion None None
  else
    let currentRelease := findCurrentRelease currentVersion releases in
    match findLatestRelease isPrerelease releases with
    | None => mkResult false currentVersion None None
    | Some latestRelease =>
        let latest := toRelease latestRelease in
        match currentRelease with
        | None => mkResult true currentVersion (Some (tag_name latestRelease)) (Some latest)
        | Some currentRelease =>
            let updateAvailable :=
              isVersionOlder (published_at currentRelease) (published_at latestRelease) in
            mkResult updateAvailable currentVersion
                     (Some (tag_name latestRelease)) (Some latest)
        end
    end.

(** [checkVersion(currentVersion, isPrerelease)]. *)
Definition checkVersion (e : Env) (w : World) (currentVersion : jsstring)
  (isPrerelease : bool) : Outcome VersionCheckResult * World :=
  match fetchAllReleases e w with
  | (Returned releases, w') =>
      (Returned (checkVersionAgainst releases currentVersion isPrerelease), w')
  | (Threw message, w') =>
      (Threw (js "Failed to check version: " ++ message), w')
  end.

End Methods.

(* ===================================================================== *)
(** ** Example data: the releases of the unit tests *)
(* ===================================================================== *)

Definition release (tag title date : string) (pre dr : bool) : GitHubReleaseResponse :=
  {| tag_name := js tag;
     name := Some (js title);
     html_url := js "https://github.com/test/repo/releases/tag/" ++ js tag;
     published_at := js date;
     prerelease := pre;
     draft := dr |}.

Definition v1_5_0 := release "v1.5.0" "Release 1.5.0" "2024-01-01T00:00:00Z" false false.
Definition v2_0_0 := release "v2.0.0" "Release 2.0.0" "2024-01-03T00:00:00Z" false false.
Definition v1_4_0 := release "v1.4.0" "Draft Release" "2023-12-31T00:00:00Z" false true.
Definition v2_0_0_beta_1 :=
  release "v2.0.0-beta.1" "Beta Release 2.0.0-beta.1" "2024-01-02T00:00:00Z" true false.

(** In the order of the tests, which is not the order of publication. *)
Definition mockReleases : list GitHubReleaseResponse :=
  [v1_5_0; v2_0_0; v1_4_0; v2_0_0_beta_1].

Definition testNotifier (interval : Z) (path : option jsstring) : ReleaseNotifier :=
  {| repo := js "test/repo"; checkInterval := interval; cacheFilePath := path;
     token := None; cachedReleases := None; lastFetchTime := 0 |}.

Definition cachePath : jsstring := js "/tmp/test-cache.json".

(** Two releases whose tags differ by the [v] prefix only, and a draft. *)
Definition plain_1_0_0 := release "1.0.0" "Release 1.0.0" "2024-01-03T00:00:00Z" false false.
Definition v1_0_0 := release "v1.0.0" "Release v1.0.0" "2024-01-01T00:00:00Z" false false.

Definition testConfig : Config.t :=
  {| Config.repo := js "test/repo"; Config.checkInterval := Some 60000;
     Config.cacheFilePath := Some cachePath; Config.token := None |}.

(** The clock of [testEnv], the source returning [body], the disk writable. *)
Definition envReturning (body : list GitHubReleaseResponse) (clock : Z) : Env :=
  {| now := clock; reply := ResponseOk body; writeError := None |}.

(** The releases of the tests as the sort leaves them, and a cache file that
    holds them. *)
Definition sortedMockReleases : list GitHubReleaseResponse :=
  [v2_0_0; v2_0_0_beta_1; v1_5_0; v1_4_0].

Definition savedCache : CacheData :=
  {| cd_lastFetchTime := 1704844800000; cd_releases := sortedMockReleases |}.



Definition feedOfDrafts : list GitHubReleaseResponse := [v1_4_0].

(** The source answers 404, and the source cannot be reached. *)
Definition envNotFound (clock : Z) : Env :=
  {| now := clock; reply := ResponseNotOk 404 (js "Not Found"); writeError := None |}.

Definition envOffline (clock : Z) : Env :=
  {| now := clock; reply := FetchRejected (js "fetch failed"); writeError := None |}.

(** Cache files that parse, each with one of the two fields of an entry. *)
Definition fileWithoutReleases : DiskFile :=
  FileJson (VObject [ (js "lastFetchTime", VNumber 1704844800000) ]).

Definition fileWithoutLastFetchTime : DiskFile :=
  FileJson (VObject [ (js "releases", VArray []) ]).

Definition freshWorld (interval : Z) (path : option jsstring) : World :=
  mkWorld (testNotifier interval path) FileMissing [].

(** 2024-01-10T00:00:00Z on the clock, [mockReleases] from the source. *)
Definition testEnv (writeFails : bool) : Env :=
  {| now := 1704844800000;
     reply := ResponseOk mockReleases;
     writeError := if writeFails then Some (js "EACCES: permission denied") else None |}.

(* ===================================================================== *)
(** ** Vocabulary of the statements *)
(* ===================================================================== *)

(** The cache answers the call made at time [t]: an entry is there, the
    interval is strictly positive and less than it has elapsed. *)
Definition cacheFresh (n : ReleaseNotifier) (t : Z) : bool :=
  match cachedReleases n with
  | Some _ => (0 <? checkInterval n) && (t - lastFetchTime n <? checkInterval n)
  | None => false
  end.

(** [q] was published no later than [r], both dates being valid. *)
Definition publishedNoLaterThan {D : DateParser} (q r : GitHubReleaseResponse) : Prop :=
  match getTime (published_at q), getTime (published_at r) with
  | Some tq, Some tr => tq <= tr
  | _, _ => False
  end.

Definition validDate {D : DateParser} (r : GitHubReleaseResponse) : Prop :=
  getTime (published_at r) <> None.

Definition publishedTime {D : DateParser} (r : GitHubReleaseResponse) : Z :=
  match getTime (published_at r) with
  | Some t => t
  | None => 0
  end.

(** Descending order of a key. *)
Definition descending {A : Type} (key : A -> Z) (a b : A) : Prop := key b <= key a.

(** [r] may be returned by [getLatestRelease(includePrerelease)]. *)
Definition eligible (includePrerelease : bool) (r : GitHubReleaseResponse) : Prop :=
  draft r = false /\ (includePrerelease = false -> prerelease r = false).

(** [latest] is what the claim on [getLatestRelease] allows for the release
    list [body]: nothing when no entry is eligible, else an eligible entry
    that no eligible entry was published after. *)
Definition latestAmong {D : DateParser} (includePrerelease : bool)
  (body : list GitHubReleaseResponse) (latest : option Release.t) : Prop :=
  match latest with
  | None => forall q, In q body -> ~ eligible includePrerelease q
  | Some rel =>
      exists r, rel = toRelease r /\ In r body /\ eligible includePrerelease r /\
                forall q, In q body -> eligible includePrerelease q ->
                          publishedNoLaterThan q r
  end.

(** The tag of [r] is [currentVersion], verbatim or once both are
    normalized. *)
Definition matchesVerbatim (currentVersion : jsstring) (r : GitHubReleaseResponse) : Prop :=
  tag_name r = currentVersion.

Definition matchesNormalized (currentVersion : jsstring) (r : GitHubReleaseResponse) : Prop :=
  normalizeVersion (tag_name r) = normalizeVersion currentVersion.

Definition matchesTag (currentVersion : jsstring) (r : GitHubReleaseResponse) : Prop :=
  matchesVerbatim currentVersion r \/ matchesNormalized currentVersion r.

(** [x] is the first entry of [l], in list order, that satisfies [P]. *)
Definition firstSuch {A : Type} (P : A -> Prop) (l : list A) (x : A) : Prop :=
  exists l1 l2, l = l1 ++ x :: l2 /\ P x /\ forall y, In y l1 -> ~ P y.

(** [a] was published strictly before [b], both dates being valid. *)
Definition publishedBefore {D : DateParser} (a b : GitHubReleaseResponse) : Prop :=
  match getTime (published_at a), getTime (published_at b) with
  | Some ta, Some tb => ta < tb
  | _, _ => False
  end.

(** [r] qualifies as the release a version is measured against. *)
Definition qualifies (isPrerelease : bool) (r : GitHubReleaseResponse) : Prop :=
  draft r = false /\ prerelease r = isPrerelease.

(** The state of the cache fields before anything was loaded or fetched. *)
Definition cacheAbsent (o : NotifierObject) : Prop :=
  o_cachedReleases o = VNull /\ o_lastFetchTime o = VNumber 0.

(** The cache fields hold a release list and a fetch time. *)
Definition cachePopulated (o : NotifierObject) : Prop :=
  exists l rs t, o_cachedReleases o = VArray l /\ releasesOfJson l = Some rs /\
                 o_lastFetchTime o = VNumber t.

(** The cache fields after construction are all-or-nothing. *)
Definition allOrNothing (o : NotifierObject) : Prop :=
  cacheAbsent o \/ cachePopulated o.

(** The fields hold an empty entry that is there: no release, time 0. *)
Definition emptyButPresent (n : ReleaseNotifier) : Prop :=
  cachedReleases n = Some [] /\ lastFetchTime n = 0.

(** A verbatim match is taken before an entry that matches only after
    normalization. *)
Definition verbatimPreferred (currentVersion : jsstring)
  (releases : list GitHubReleaseResponse)
  (selected : option GitHubReleaseResponse) : Prop :=
  forall a b, In a releases -> In b releases ->
    ~ matchesVerbatim currentVersion a -> matchesNormalized currentVersion a ->
    matchesVerbatim currentVersion b ->
    selected = Some b.

(** The entry that [saveCacheToDisk] writes for a cleared cache. *)
Definition emptyCacheData : CacheData :=
  {| cd_lastFetchTime := 0; cd_releases := [] |}.

(** The same answers of the outside world, but for the disk's. *)
Definition withWriteError (e : Env) (err : option jsstring) : Env :=
  {| now := now e; reply := reply e; writeError := err |}.

(** A run of white space, and the letter that [normalizeVersion] strips. *)
Definition allWhiteSpace (s : jsstring) : Prop :=
  Forall (fun c => isWhiteSpace c = true) s.

Definition isLetterV (c : N) : Prop := c = 118%N \/ c = 86%N.


(** The cached list, when there is one, is in descending order of
    publication. *)
Definition cacheSorted {D : DateParser} (n : ReleaseNotifier) : Prop :=
  match cachedReleases n with
  | Some rs => StronglySorted (descending publishedTime) rs
  | None => True
  end.

(** Two results of [checkVersion] give the same verdict: they agree on all
    but the echo of the version asked about. *)
Definition sameVerdict (a b : VersionCheckResult) : Prop :=
  updateAvailable a = updateAvailable b /\
  latestVersion a = latestVersion b /\
  latestRelease a = latestRelease b.

(** The source's reply is a failure: anything but a release list. *)
Definition replyFails (r : FetchReply) : Prop :=
  forall body, r <> ResponseOk body.

(** The error that [fetchAllReleases] throws on a failing reply. *)
Definition fetchError (r : FetchReply) : jsstring :=
  match r with
  | FetchRejected message => message
  | ResponseNotOk status statusText =>
      js "GitHub API error: " ++ numberToString status ++ js " " ++ statusText
  | ResponseNotJson message => message
  | ResponseOk _ => []
  end.

(** The world once a request of the notifier has gone out, nothing else
    changed. *)
Definition afterRequest (w : World) : World :=
  mkWorld (self w) (disk w) (requestFor (self w) :: requests w).

(** A process that starts: the notifier that construction gives on the
    cache file [d], when its fields are well typed, and no request sent. *)
Definition startWorld (config : Config.t) (d : DiskFile) : option World :=
  match typed (constructor config d) with
  | Some n => Some (mkWorld n d [])
  | None => None
  end.

(** [config.checkInterval ?? 3600000], the interval that construction
    gives the notifier. *)
Definition configuredInterval (config : Config.t) : Z :=
  match Config.checkInterval config with
  | Some i => i
  | None => 3600000
  end.

(** The result of [checkVersion] that carries no release. *)
Definition noRelease (currentVersion : jsstring) : VersionCheckResult :=
  {| updateAvailable := false; currentVersion := currentVersion;
     latestVersion := None; latestRelease := None |}.

(** The fields that the class declares [readonly]. *)
Definition sameConfiguration (a b : ReleaseNotifier) : Prop :=
  repo a = repo b /\ checkInterval a = checkInterval b /\
  cacheFilePath a = cacheFilePath b /\ token a = token b.

(* ===================================================================== *)
(** ** Strings and lists *)
(* ===================================================================== *)

Lemma jsstring_eqb_eq (a b : jsstring) : jsstring_eqb a b = true <-> a = b.
Proof.
  revert b; induction a as [|x a IH]; intros [|y b]; simpl; split;
    try congruence; try reflexivity.
  - rewrite andb_true_iff, N.eqb_eq, IH. intros [-> ->]; reflexivity.
  - intros H; injection H as -> ->. rewrite N.eqb_refl. apply IH; reflexivity.
Qed.

Lemma jsstring_eqb_neq (a b : jsstring) : jsstring_eqb a b = false <-> a <> b.
Proof.
  rewrite <- jsstring_eqb_eq. destruct (jsstring_eqb a b); split; congruence.
Qed.

Lemma find_first {A} (f : A -> bool) (l1 l2 : list A) (x : A) :
  (forall y, In y l1 -> f y = false) -> f x = true ->
  find f (l1 ++ x :: l2) = Some x.
Proof.
  intros Hl1 Hx. induction l1 as [|y l1 IH]; simpl.
  - now rewrite Hx.
  - rewrite (Hl1 y (or_introl eq_refl)). apply IH.
    intros z Hz; apply Hl1; now right.
Qed.

Lemma find_none_iff {A} (f : A -> bool) (l : list A) :
  find f l = None <-> forall y, In y l -> f y = false.
Proof.
  split.
  - apply find_none.
  - induction l as [|y l IH]; simpl; intros H; [reflexivity|].
    rewrite (H y (or_introl eq_refl)). apply IH. intros z Hz; apply H; now right.
Qed.

Lemma filter_head_find {A} (f : A -> bool) (l : list A) :
  hd_error (filter f l) = find f l.
Proof.
  induction l as [|y l IH]; simpl; [reflexivity|].
  destruct (f y); simpl; [reflexivity|exact IH].
Qed.

(* ===================================================================== *)
(** ** The sort *)
(* ===================================================================== *)

Section SortProperties.
Context {A : Type} (comparefn : A -> A -> option Z).

Lemma sortInsert_perm (x : A) (l : list A) :
  Permutation (sortInsert comparefn x l) (x :: l).
Proof.
  induction l as [|y l IH]; simpl; [reflexivity|].
  destruct (sortCompare comparefn x y <=? 0); [reflexivity|].
  rewrite IH. apply perm_swap.
Qed.

Lemma Array_sort_perm (l : list A) : Permutation (Array_sort comparefn l) l.
Proof.
  induction l as [|x l IH]; simpl; [reflexivity|].
  rewrite sortInsert_perm. now constructor.
Qed.

(** When the comparator is the difference of a key on the elements that
    satisfy [P], the sort puts a list of such elements in (descending key) order
    of the key. *)
Context (key : A -> Z) (P : A -> Prop).
Hypothesis comparefn_key :
  forall x y, P x -> P y -> sortCompare comparefn x y = key y - key x.

Lemma sortInsert_sorted (x : A) (l : list A) :
  P x -> Forall P l -> StronglySorted (descending key) l ->
  StronglySorted (descending key) (sortInsert comparefn x l).
Proof.
  intros Px Pl Hs. induction Hs as [|y l Hs IH Hy]; simpl.
  - repeat constructor.
  - inversion Pl as [|? ? Py Pl']; subst.
    rewrite (comparefn_key x y Px Py).
    destruct (Z.leb_spec (key y - key x) 0) as [Hle|Hgt].
    + constructor; [now constructor|].
      constructor; [unfold descending; lia|].
      rewrite Forall_forall in Hy |- *. intros z Hz.
      specialize (Hy z Hz). unfold descending in *; lia.
    + constructor; [now apply IH|].
      rewrite Forall_forall in Hy |- *. intros z Hz.
      apply (Permutation_in _ (sortInsert_perm x l)) in Hz.
      destruct Hz as [<-|Hz]; [unfold descending; lia|now apply Hy].
Qed.

Lemma Array_sort_sorted (l : list A) :
  Forall P l -> StronglySorted (descending key) (Array_sort comparefn l).
Proof.
  induction 1 as [|x l Px Pl IH]; simpl; [constructor|].
  apply sortInsert_sorted; [exact Px| |exact IH].
  rewrite Forall_forall in Pl |- *. intros z Hz. apply Pl.
  now apply (Permutation_in _ (Array_sort_perm l)).
Qed.

Lemma sorted_filter_head (f : A -> bool) (l : list A) (x : A) :
  StronglySorted (descending key) l -> find f l = Some x ->
  forall y, In y l -> f y = true -> key y <= key x.
Proof.
  induction 1 as [|z l Hs IH Hz]; simpl; [discriminate|].
  destruct (f z) eqn:Fz.
  - intros [= ->] y [<-|Hy] _; [lia|].
    rewrite Forall_forall in Hz. exact (Hz y Hy).
  - intros Hfind y [<-|Hy] Fy; [congruence|]. now apply IH.
Qed.

End SortProperties.

(* ===================================================================== *)
(** ** Fetching *)
(* ===================================================================== *)

Section Properties.
Context {D : DateParser}.

Lemma byPublishedDesc_key (x y : GitHubReleaseResponse) :
  validDate x -> validDate y ->
  sortCompare byPublishedDesc x y = publishedTime y - publishedTime x.
Proof.
  unfold validDate, sortCompare, byPublishedDesc, publishedTime.
  destruct (getTime (published_at x)), (getTime (published_at y)); congruence.
Qed.

Lemma fetchAllReleases_stale (e : Env) (w : World) :
  cacheFresh (self w) (now e) = false ->
  fetchAllReleases e w = fetchFromSource e w.
Proof.
  unfold cacheFresh, fetchAllReleases.
  destruct (cachedReleases (self w)); [|reflexivity].
  now intros ->.
Qed.

Lemma fetchAllReleases_fresh (e : Env) (w : World) :
  cacheFresh (self w) (now e) = true ->
  exists cached, cachedReleases (self w) = Some cached /\
                 fetchAllReleases e w = (Returned cached, w).
Proof.
  unfold cacheFresh, fetchAllReleases.
  destruct (cachedReleases (self w)) as [cached|]; [|discriminate].
  intros ->. now exists cached.
Qed.

Lemma fetchFromSource_ok (e : Env) (w : World) (body : list GitHubReleaseResponse) :
  reply e = ResponseOk body ->
  fst (fetchFromSource e w) = Returned (Array_sort byPublishedDesc body).
Proof. unfold fetchFromSource. now intros ->. Qed.

Lemma validRelease_eligible (includePrerelease : bool) (r : GitHubReleaseResponse) :
  validRelease includePrerelease r = true <-> eligible includePrerelease r.
Proof.
  unfold validRelease, eligible.
  destruct (draft r), includePrerelease, (prerelease r); simpl; intuition congruence.
Qed.

Lemma publishedNoLaterThan_key (q r : GitHubReleaseResponse) :
  validDate q -> validDate r -> publishedTime q <= publishedTime r ->
  publishedNoLaterThan q r.
Proof.
  unfold validDate, publishedTime, publishedNoLaterThan.
  destruct (getTime (published_at q)), (getTime (published_at r)); congruence.
Qed.

(** The first eligible entry of the sorted list is a latest eligible entry
    of the list the source returned. *)
Lemma sorted_first_eligible (includePrerelease : bool)
  (body : list GitHubReleaseResponse) :
  Forall validDate body ->
  latestAmong includePrerelease body
    (option_map toRelease
       (find (validRelease includePrerelease) (Array_sort byPublishedDesc body))).
Proof.
  intros Hvalid.
  pose proof (Array_sort_perm byPublishedDesc body) as Hperm.
  pose proof (Array_sort_sorted byPublishedDesc publishedTime validDate
                byPublishedDesc_key body Hvalid) as Hsorted.
  rewrite Forall_forall in Hvalid.
  destruct (find _ _) as [r|] eqn:Hfind; simpl.
  - destruct (find_some _ _ Hfind) as [Hin Hr].
    exists r. split; [reflexivity|]. split; [|split].
    + now apply (Permutation_in _ Hperm).
    + now apply validRelease_eligible.
    + intros q Hq Eq.
      apply publishedNoLaterThan_key.
      * now apply Hvalid.
      * apply Hvalid. now apply (Permutation_in _ Hperm).
      * apply (sorted_filter_head publishedTime (validRelease includePrerelease)
                 _ r Hsorted Hfind).
        -- now apply (Permutation_in _ (Permutation_sym Hperm)).
        -- now apply validRelease_eligible.
  - intros q Hq Eq.
    apply validRelease_eligible in Eq.
    rewrite (find_none _ _ Hfind q) in Eq; [discriminate|].
    now apply (Permutation_in _ (Permutation_sym Hperm)).
Qed.

Lemma getLatestRelease_of_fetch (e : Env) (w : World) (includePrerelease : bool) :
  fst (getLatestRelease e w includePrerelease) =
  match fst (fetchAllReleases e w) with
  | Returned releases =>
      Returned (option_map toRelease (find (validRelease includePrerelease) releases))
  | Threw message => Threw (js "Failed to fetch releases: " ++ message)
  end.
Proof.
  unfold getLatestRelease.
  destruct (fetchAllReleases e w) as [[releases|message] w']; simpl; [|reflexivity].
  rewrite <- filter_head_find.
  now destruct (filter _ releases).
Qed.

(** C1. Whatever the order of the release list the source returns (its
    dates being valid), [getLatestRelease(includePrerelease)] returns an
    entry that is not a draft (nor, unless [includePrerelease], a
    prerelease) and that no other such entry was published after, and
    [null] when the list has no such entry. *)
Theorem getLatestRelease_returns_latest (e : Env) (w : World)
  (includePrerelease : bool) (body : list GitHubReleaseResponse) :
  cacheFresh (self w) (now e) = false ->
  reply e = ResponseOk body ->
  Forall validDate body ->
  exists latest,
    fst (getLatestRelease e w includePrerelease) = Returned latest /\
    latestAmong includePrerelease body latest.
Proof.
  intros Hstale Hreply Hvalid.
  eexists. split.
  - rewrite getLatestRelease_of_fetch, (fetchAllReleases_stale _ _ Hstale),
      (fetchFromSource_ok _ _ _ Hreply). reflexivity.
  - now apply sorted_first_eligible.
Qed.

(* ===================================================================== *)
(** ** checkVersion *)
(* ===================================================================== *)

Lemma find_firstSuch {A} (f : A -> bool) (P : A -> Prop) (l : list A) (x : A) :
  (forall y, f y = true <-> P y) ->
  find f l = Some x <-> firstSuch P l x.
Proof.
  intros HfP. split.
  - induction l as [|y l IH]; simpl; [discriminate|].
    destruct (f y) eqn:Fy.
    + intros [= ->]. exists [], l. repeat split; [now apply HfP|intros ? []].
    + intros Hfind. destruct (IH Hfind) as (l1 & l2 & -> & Px & Hl1).
      exists (y :: l1), l2. repeat split; trivial.
      intros z [<-|Hz]; [rewrite <- HfP; congruence|now apply Hl1].
  - intros (l1 & l2 & -> & Px & Hl1). apply find_first; [|now apply HfP].
    intros y Hy. specialize (Hl1 y Hy). rewrite <- HfP in Hl1.
    now destruct (f y).
Qed.

Lemma verbatim_normalized (currentVersion : jsstring) (r : GitHubReleaseResponse) :
  matchesVerbatim currentVersion r -> matchesNormalized currentVersion r.
Proof. unfold matchesVerbatim, matchesNormalized. now intros ->. Qed.

Lemma matchesTag_test (currentVersion : jsstring) (r : GitHubReleaseResponse) :
  jsstring_eqb (normalizeVersion (tag_name r)) (normalizeVersion currentVersion)
  || jsstring_eqb (tag_name r) currentVersion = true
  <-> matchesTag currentVersion r.
Proof.
  unfold matchesTag, matchesVerbatim, matchesNormalized.
  rewrite orb_true_iff, !jsstring_eqb_eq. tauto.
Qed.

Lemma qualifies_test (isPrerelease : bool) (r : GitHubReleaseResponse) :
  (if isPrerelease then prerelease r && negb (draft r)
   else negb (prerelease r) && negb (draft r)) = true
  <-> qualifies isPrerelease r.
Proof.
  unfold qualifies. destruct isPrerelease, (prerelease r), (draft r); simpl;
    intuition congruence.
Qed.

Lemma findCurrentRelease_first (currentVersion : jsstring)
  (releases : list GitHubReleaseResponse) (x : GitHubReleaseResponse) :
  findCurrentRelease currentVersion releases = Some x
  <-> firstSuch (matchesTag currentVersion) releases x.
Proof.
  unfold findCurrentRelease. apply find_firstSuch.
  intros y. apply matchesTag_test.
Qed.

Lemma findLatestRelease_first (isPrerelease : bool)
  (releases : list GitHubReleaseResponse) (x : GitHubReleaseResponse) :
  findLatestRelease isPrerelease releases = Some x
  <-> firstSuch (qualifies isPrerelease) releases x.
Proof.
  unfold findLatestRelease. destruct isPrerelease;
    apply find_firstSuch; intros y.
  - apply (qualifies_test true).
  - apply (qualifies_test false).
Qed.

Lemma findCurrentRelease_none (currentVersion : jsstring)
  (releases : list GitHubReleaseResponse) :
  (forall r, In r releases -> ~ matchesNormalized currentVersion r) ->
  findCurrentRelease currentVersion releases = None.
Proof.
  intros Hnone. unfold findCurrentRelease. apply find_none_iff.
  intros y Hy. specialize (Hnone y Hy).
  destruct (_ || _) eqn:E; [|reflexivity].
  apply matchesTag_test in E. destruct E as [E|E]; [|contradiction].
  apply verbatim_normalized in E. contradiction.
Qed.

Lemma checkVersionAgainst_located (releases : list GitHubReleaseResponse)
  (currentVersion : jsstring) (isPrerelease : bool)
  (reference : GitHubReleaseResponse) :
  findLatestRelease isPrerelease releases = Some reference ->
  checkVersionAgainst releases currentVersion isPrerelease =
  match findCurrentRelease currentVersion releases with
  | None =>
      mkResult true currentVersion (Some (tag_name reference))
               (Some (toRelease reference))
  | Some current =>
      mkResult (isVersionOlder (published_at current) (published_at reference))
               currentVersion (Some (tag_name reference)) (Some (toRelease reference))
  end.
Proof.
  intros Href. unfold checkVersionAgainst. rewrite Href.
  destruct releases as [|r releases]; [|reflexivity].
  destruct isPrerelease; discriminate.
Qed.

Lemma isVersionOlder_before (a b : GitHubReleaseResponse) :
  isVersionOlder (published_at a) (published_at b) = true <-> publishedBefore a b.
Proof.
  unfold isVersionOlder, publishedBefore.
  destruct (getTime (published_at a)), (getTime (published_at b));
    try (split; [discriminate|contradiction]).
  apply Z.ltb_lt.
Qed.

(** C2. When some release qualifies as the reference for the requested
    class and no release has the tag [currentVersion], verbatim or after
    normalization, [checkVersion] reports an update, with the reference
    release and its tag. *)
Theorem checkVersion_unknown_version (e : Env) (w w' : World)
  (currentVersion : jsstring) (isPrerelease : bool)
  (releases : list GitHubReleaseResponse) (reference : GitHubReleaseResponse) :
  fetchAllReleases e w = (Returned releases, w') ->
  releases <> [] ->
  firstSuch (qualifies isPrerelease) releases reference ->
  (forall r, In r releases -> ~ matchesVerbatim currentVersion r) ->
  (forall r, In r releases -> ~ matchesNormalized currentVersion r) ->
  checkVersion e w currentVersion isPrerelease =
  (Returned {| updateAvailable := true;
               currentVersion := currentVersion;
               latestVersion := Some (tag_name reference);
               latestRelease := Some (toRelease reference) |}, w').
Proof.
  intros Hfetch _ Href _ Hnorm.
  unfold checkVersion. rewrite Hfetch.
  apply findLatestRelease_first in Href.
  rewrite (checkVersionAgainst_located _ _ _ _ Href).
  now rewrite (findCurrentRelease_none _ _ Hnorm).
Qed.

(** C3. When [checkVersion] finds the release of [currentVersion] and a
    reference release, [updateAvailable] is true exactly when the first was
    published strictly before the second; equal timestamps give false. *)
Theorem checkVersion_compares_timestamps (e : Env) (w w' : World)
  (currentVersion : jsstring) (isPrerelease : bool)
  (releases : list GitHubReleaseResponse)
  (matched reference : GitHubReleaseResponse) :
  fetchAllReleases e w = (Returned releases, w') ->
  findCurrentRelease currentVersion releases = Some matched ->
  findLatestRelease isPrerelease releases = Some reference ->
  exists result,
    checkVersion e w currentVersion isPrerelease = (Returned result, w') /\
    (updateAvailable result = true <-> publishedBefore matched reference) /\
    (getTime (published_at matched) = getTime (published_at reference) ->
     updateAvailable result = false).
Proof.
  intros Hfetch Hcur Href.
  unfold checkVersion. rewrite Hfetch.
  rewrite (checkVersionAgainst_located _ _ _ _ Href), Hcur.
  eexists. split; [reflexivity|]. simpl. split.
  - apply isVersionOlder_before.
  - intros Heq. unfold isVersionOlder. rewrite Heq.
    destruct (getTime (published_at reference)); [apply Z.ltb_irrefl|reflexivity].
Qed.

(** C4, as the code has it. The release taken for [currentVersion] is the
    first entry in list order whose tag is [currentVersion] verbatim or
    after normalization: an entry that matches only after normalization
    wins over a verbatim match that comes later in the list. *)
Theorem checkVersion_first_match_wins (currentVersion : jsstring)
  (before after : list GitHubReleaseResponse) (entry : GitHubReleaseResponse) :
  (forall r, In r before -> ~ matchesTag currentVersion r) ->
  matchesTag currentVersion entry ->
  findCurrentRelease currentVersion (before ++ entry :: after) = Some entry.
Proof.
  intros Hbefore Hentry. apply findCurrentRelease_first.
  now exists before, after.
Qed.

(** C10. The search for the release of [currentVersion] looks at tags only:
    the first entry whose tag matches is taken whatever its [draft] and
    [prerelease] flags, and its date is the one compared with the reference
    release's. *)
Theorem checkVersion_match_ignores_flags (e : Env) (w w' : World)
  (currentVersion : jsstring) (isPrerelease : bool)
  (before after : list GitHubReleaseResponse)
  (entry reference : GitHubReleaseResponse) :
  fetchAllReleases e w = (Returned (before ++ entry :: after), w') ->
  (forall r, In r before -> ~ matchesTag currentVersion r) ->
  matchesTag currentVersion entry ->
  draft entry = true \/ prerelease entry <> isPrerelease ->
  findLatestRelease isPrerelease (before ++ entry :: after) = Some reference ->
  findCurrentRelease currentVersion (before ++ entry :: after) = Some entry /\
  exists result,
    checkVersion e w currentVersion isPrerelease = (Returned result, w') /\
    updateAvailable result =
      isVersionOlder (published_at entry) (published_at reference) /\
    (updateAvailable result = true <-> publishedBefore entry reference).
Proof.
  intros Hfetch Hbefore Hentry _ Href.
  assert (Hcur : findCurrentRelease currentVersion (before ++ entry :: after)
                 = Some entry).
  { apply findCurrentRelease_first. now exists before, after. }
  split; [exact Hcur|].
  unfold checkVersion. rewrite Hfetch.
  rewrite (checkVersionAgainst_located _ _ _ _ Href), Hcur.
  eexists. split; [reflexivity|]. simpl. split; [reflexivity|].
  apply isVersionOlder_before.
Qed.

(* ===================================================================== *)
(** ** The cache *)
(* ===================================================================== *)

(** C5, as the code has it. After [clearCache()] the cache fields are back
    in the absent state, [cachedReleases = null] and [lastFetchTime = 0],
    the very state of a notifier that never fetched; the empty entry
    (no release, time 0) exists on disk only: it is what is written to the
    cache file when a path is configured and the write goes through. *)
Theorem clearCache_resets_to_absent (e : Env) (w : World) :
  cachedReleases (self (clearCache e w)) = None /\
  lastFetchTime (self (clearCache e w)) = 0 /\
  requests (clearCache e w) = requests w /\
  (pathConfigured (cacheFilePath (self w)) = true -> writeError e = None ->
   disk (clearCache e w) = FileJson (cacheToJson emptyCacheData)) /\
  (pathConfigured (cacheFilePath (self w)) = false ->
   disk (clearCache e w) = disk w).
Proof.
  unfold clearCache, saveCacheToDisk, writeFileSync; simpl.
  destruct (pathConfigured (cacheFilePath (self w))); simpl.
  - destruct (writeError e); simpl; repeat split; congruence.
  - repeat split; congruence.
Qed.

Lemma getProperty_object (props : list (jsstring * JSValue)) (key : jsstring) :
  getProperty (VObject props) key = Some (lookupProperty key props).
Proof. reflexivity. Qed.

Lemma cacheOfJson_fields (v : JSValue) (c : CacheData) :
  cacheOfJson v = Some c ->
  exists l,
    getProperty v (js "releases") = Some (VArray l) /\
    getProperty v (js "lastFetchTime") = Some (VNumber (cd_lastFetchTime c)) /\
    releasesOfJson l = Some (cd_releases c).
Proof.
  destruct v as [| | | | | |props]; try discriminate.
  unfold cacheOfJson. rewrite !getProperty_object.
  destruct (lookupProperty (js "lastFetchTime") props) as [| | |t| | |];
    try discriminate.
  destruct (lookupProperty (js "releases") props) as [| | | | |l|];
    try discriminate.
  destruct (releasesOfJson l) as [rs|] eqn:Hrs; [|discriminate].
  intros [= <-]. now exists l.
Qed.

(** C6, as the code has it. Construction never raises: every error of
    reading or parsing is caught and leaves the cache absent, as do a
    missing file and no configured path.  But a file whose JSON parses to
    anything other than [null] is not validated: the two cache fields are
    set, each on its own, to the [releases] and [lastFetchTime] properties of
    the parsed value, [undefined] for a property that is not there.  Both
    are loaded when the file holds a well-formed entry. *)
Theorem constructor_loads_unvalidated (config : Config.t) (d : DiskFile) :
  let o := constructor config d in
  (pathConfigured (Config.cacheFilePath config) = false \/ d = FileMissing ->
   cacheAbsent o) /\
  (forall message, loadCacheFromDisk_try d (VNull, VNumber 0) = Threw message ->
   cacheAbsent o) /\
  (d = FileUnreadable \/ d = FileUnparsable \/ d = FileJson VNull ->
   cacheAbsent o) /\
  (forall v releases t,
     pathConfigured (Config.cacheFilePath config) = true -> d = FileJson v ->
     getProperty v (js "releases") = Some releases ->
     getProperty v (js "lastFetchTime") = Some t ->
     o_cachedReleases o = releases /\ o_lastFetchTime o = t) /\
  (forall v c,
     pathConfigured (Config.cacheFilePath config) = true -> d = FileJson v ->
     cacheOfJson v = Some c ->
     cachePopulated o /\
     typed o = Some {| repo := o_repo o; checkInterval := o_checkInterval o;
                       cacheFilePath := o_cacheFilePath o; token := o_token o;
                       cachedReleases := Some (cd_releases c);
                       lastFetchTime := cd_lastFetchTime c |}).
Proof.
  unfold constructor, loadCacheFromDisk, cacheAbsent; cbn -[js].
  destruct (pathConfigured (Config.cacheFilePath config)) eqn:Hpath; cbn -[js].
  - split; [|split; [|split; [|split]]].
    + intros [?| ->]; [discriminate|now split].
    + now intros message ->.
    + intros [-> |[-> | ->]]; now split.
    + intros v releases t _ -> Hr Ht. cbn -[js]. now rewrite Hr, Ht.
    + intros v c _ -> Hc.
      destruct (cacheOfJson_fields _ _ Hc) as (l & Hr & Ht & Hrs).
      cbn -[js]. rewrite Hr, Ht. split.
      * now exists l, (cd_releases c), (cd_lastFetchTime c).
      * unfold typed; cbn -[js]. now rewrite Hrs.
  - split; [|split; [|split; [|split]]]; try (intros; now split);
      intros; discriminate.
Qed.

Lemma getLatestPrerelease_of_fetch (e : Env) (w : World) :
  getLatestPrerelease e w =
  match fetchAllReleases e w with
  | (Returned releases, w') =>
      (Returned (option_map toRelease
                   (find (fun r => prerelease r && negb (draft r)) releases)), w')
  | (Threw message, w') => (Threw (js "Failed to fetch prereleases: " ++ message), w')
  end.
Proof.
  unfold getLatestPrerelease.
  destruct (fetchAllReleases e w) as [[releases|message] w']; [|reflexivity].
  now destruct (find _ releases).
Qed.

Lemma getLatestRelease_of_fetch_world (e : Env) (w : World) (includePrerelease : bool) :
  getLatestRelease e w includePrerelease =
  match fetchAllReleases e w with
  | (Returned releases, w') =>
      (Returned (option_map toRelease (find (validRelease includePrerelease) releases)),
       w')
  | (Threw message, w') => (Threw (js "Failed to fetch releases: " ++ message), w')
  end.
Proof.
  unfold getLatestRelease.
  destruct (fetchAllReleases e w) as [[releases|message] w']; [|reflexivity].
  rewrite <- filter_head_find.
  now destruct (filter _ releases).
Qed.

Lemma fetchFromSource_requests (e : Env) (w : World) :
  requests (snd (fetchFromSource e w)) = requestFor (self w) :: requests w.
Proof.
  unfold fetchFromSource, saveCacheToDisk, writeFileSync.
  destruct (reply e); simpl; try reflexivity.
  destruct (pathConfigured (cacheFilePath (self w))); simpl; [|reflexivity].
  now destruct (writeError e).
Qed.

Lemma cacheFresh_false (n : ReleaseNotifier) (t : Z) :
  checkInterval n <= 0 \/ checkInterval n <= t - lastFetchTime n ->
  cacheFresh n t = false.
Proof.
  unfold cacheFresh. intros H. destruct (cachedReleases n); [|reflexivity].
  apply andb_false_iff. rewrite !Z.ltb_ge. lia.
Qed.

Lemma cacheFresh_true (n : ReleaseNotifier) (t : Z)
  (cached : list GitHubReleaseResponse) :
  cachedReleases n = Some cached -> 0 < checkInterval n ->
  t - lastFetchTime n < checkInterval n ->
  cacheFresh n t = true.
Proof.
  unfold cacheFresh. intros -> H1 H2.
  apply andb_true_iff. rewrite !Z.ltb_lt. lia.
Qed.

Lemma operations_requests (e : Env) (w : World) (includePrerelease : bool)
  (currentVersion : jsstring) (isPrerelease : bool) :
  requests (snd (getLatestRelease e w includePrerelease))
    = requests (snd (fetchAllReleases e w)) /\
  requests (snd (getLatestPrerelease e w)) = requests (snd (fetchAllReleases e w)) /\
  requests (snd (checkVersion e w currentVersion isPrerelease))
    = requests (snd (fetchAllReleases e w)).
Proof.
  rewrite getLatestRelease_of_fetch_world, getLatestPrerelease_of_fetch.
  unfold checkVersion.
  now destruct (fetchAllReleases e w) as [[releases|message] w'].
Qed.

(** C7. While a cache entry is present, [checkInterval] is strictly positive
    and less than [checkInterval] has elapsed since the last fetch, the three
    public operations send no request to the release source and answer from
    the cached list; when [checkInterval] is zero or negative, or the
    elapsed time has reached it, each of them sends a request. *)
Theorem cache_window_decides_fetch (e : Env) (w : World)
  (includePrerelease : bool) (currentVersion : jsstring) (isPrerelease : bool) :
  (forall cached,
     cachedReleases (self w) = Some cached ->
     0 < checkInterval (self w) ->
     now e - lastFetchTime (self w) < checkInterval (self w) ->
     getLatestRelease e w includePrerelease =
       (Returned (option_map toRelease (find (validRelease includePrerelease) cached)),
        w) /\
     getLatestPrerelease e w =
       (Returned (option_map toRelease
                    (find (fun r => prerelease r && negb (draft r)) cached)), w) /\
     checkVersion e w currentVersion isPrerelease =
       (Returned (checkVersionAgainst cached currentVersion isPrerelease), w)) /\
  (checkInterval (self w) <= 0 \/
   checkInterval (self w) <= now e - lastFetchTime (self w) ->
   requests (snd (getLatestRelease e w includePrerelease))
     = requestFor (self w) :: requests w /\
   requests (snd (getLatestPrerelease e w)) = requestFor (self w) :: requests w /\
   requests (snd (checkVersion e w currentVersion isPrerelease))
     = requestFor (self w) :: requests w).
Proof.
  split.
  - intros cached Hcached Hpos Helapsed.
    destruct (fetchAllReleases_fresh e w
                (cacheFresh_true _ _ _ Hcached Hpos Helapsed))
      as (cached' & Hcached' & Hfetch).
    assert (cached' = cached) as -> by congruence.
    rewrite getLatestRelease_of_fetch_world, getLatestPrerelease_of_fetch.
    unfold checkVersion. now rewrite Hfetch.
  - intros Hstale.
    destruct (operations_requests e w includePrerelease currentVersion isPrerelease)
      as (-> & -> & ->).
    rewrite (fetchAllReleases_stale e w (cacheFresh_false _ _ Hstale)).
    now rewrite fetchFromSource_requests.
Qed.

Lemma find_draft_free (f : GitHubReleaseResponse -> bool)
  (releases : list GitHubReleaseResponse) (r : GitHubReleaseResponse) :
  (forall x, f x = true -> draft x = false) ->
  find f releases = Some r -> draft r = false.
Proof.
  intros Hf Hfind. apply Hf. now apply (find_some _ _ Hfind).
Qed.

Lemma findLatestRelease_qualifies (isPrerelease : bool)
  (releases : list GitHubReleaseResponse) (r : GitHubReleaseResponse) :
  findLatestRelease isPrerelease releases = Some r -> qualifies isPrerelease r.
Proof.
  intros H. apply findLatestRelease_first in H.
  now destruct H as (_ & _ & _ & H & _).
Qed.

Lemma checkVersionAgainst_latest (releases : list GitHubReleaseResponse)
  (currentVersion : jsstring) (isPrerelease : bool) (r : Release.t) :
  latestRelease (checkVersionAgainst releases currentVersion isPrerelease) = Some r ->
  exists x, findLatestRelease isPrerelease releases = Some x /\ r = toRelease x.
Proof.
  unfold checkVersionAgainst.
  destruct (List.length releases =? 0)%nat; [discriminate|].
  destruct (findLatestRelease isPrerelease releases) as [x|]; [|discriminate].
  destruct (findCurrentRelease currentVersion releases); simpl;
    intros [= <-]; now exists x.
Qed.

(** C8. No public operation hands out a draft: the release returned by
    [getLatestRelease] (with either flag) and by [getLatestPrerelease], and
    the [latestRelease] of a [checkVersion] result, have [draft = false];
    the release of [getLatestPrerelease] is moreover a prerelease. *)
Theorem operations_never_expose_draft (e : Env) (w : World) :
  (forall includePrerelease r,
     fst (getLatestRelease e w includePrerelease) = Returned (Some r) ->
     Release.draft r = false) /\
  (forall r,
     fst (getLatestPrerelease e w) = Returned (Some r) ->
     Release.draft r = false /\ Release.prerelease r = true) /\
  (forall currentVersion isPrerelease result r,
     fst (checkVersion e w currentVersion isPrerelease) = Returned result ->
     latestRelease result = Some r ->
     Release.draft r = false).
Proof.
  split; [|split].
  - intros includePrerelease r.
    rewrite getLatestRelease_of_fetch.
    destruct (fst (fetchAllReleases e w)) as [releases|message]; [|discriminate].
    destruct (find _ releases) as [x|] eqn:Hfind; [|discriminate].
    intros [= <-]. simpl.
    destruct (find_some _ _ Hfind) as [_ Hx].
    apply validRelease_eligible in Hx. apply Hx.
  - intros r. rewrite getLatestPrerelease_of_fetch.
    destruct (fetchAllReleases e w) as [[releases|message] w']; [|discriminate].
    destruct (find _ releases) as [x|] eqn:Hfind; [|discriminate].
    intros [= <-]. simpl.
    destruct (find_some _ _ Hfind) as [_ Hx].
    apply andb_true_iff in Hx. destruct Hx as [Hpre Hdraft].
    apply negb_true_iff in Hdraft. now split.
  - intros currentVersion isPrerelease result r.
    unfold checkVersion.
    destruct (fetchAllReleases e w) as [[releases|message] w']; [|discriminate].
    intros [= <-] Hlatest.
    destruct (checkVersionAgainst_latest _ _ _ _ Hlatest) as (x & Hx & ->).
    apply findLatestRelease_qualifies in Hx. apply Hx.
Qed.

Lemma saveCacheToDisk_memory (e : Env) (w : World) :
  self (saveCacheToDisk e w) = self w /\
  requests (saveCacheToDisk e w) = requests w.
Proof.
  unfold saveCacheToDisk, writeFileSync.
  destruct (pathConfigured (cacheFilePath (self w))); simpl; [|now split].
  now destruct (writeError e).
Qed.

(** What a call returns and leaves in memory: all but the cache file. *)
Lemma fetchAllReleases_write_error (e : Env) (w : World) (err : option jsstring) :
  fst (fetchAllReleases (withWriteError e err) w) = fst (fetchAllReleases e w) /\
  self (snd (fetchAllReleases (withWriteError e err) w))
    = self (snd (fetchAllReleases e w)) /\
  requests (snd (fetchAllReleases (withWriteError e err) w))
    = requests (snd (fetchAllReleases e w)).
Proof.
  unfold fetchAllReleases, fetchFromSource; simpl.
  destruct (cachedReleases (self w)) as [cached|];
    [destruct (_ && _); [now repeat split|]|];
    destruct (reply e); simpl; try now repeat split.
  all: repeat split; try reflexivity;
    rewrite ?(proj1 (saveCacheToDisk_memory _ _)),
            ?(proj2 (saveCacheToDisk_memory _ _)); reflexivity.
Qed.

(** C9. A failing write of the cache file is never propagated: with any
    write error in place of a successful write, each public operation
    returns the same outcome and leaves the same fields in memory; an
    operation that fetched a release list returns normally; and
    [clearCache] still resets the fields and returns. *)
Theorem write_failure_never_propagates (e : Env) (w : World) (message : jsstring)
  (includePrerelease : bool) (currentVersion : jsstring) (isPrerelease : bool) :
  let failing := withWriteError e (Some message) in
  let writing := withWriteError e None in
  (fst (getLatestRelease failing w includePrerelease)
     = fst (getLatestRelease writing w includePrerelease) /\
   self (snd (getLatestRelease failing w includePrerelease))
     = self (snd (getLatestRelease writing w includePrerelease))) /\
  (fst (getLatestPrerelease failing w) = fst (getLatestPrerelease writing w) /\
   self (snd (getLatestPrerelease failing w))
     = self (snd (getLatestPrerelease writing w))) /\
  (fst (checkVersion failing w currentVersion isPrerelease)
     = fst (checkVersion writing w currentVersion isPrerelease) /\
   self (snd (checkVersion failing w currentVersion isPrerelease))
     = self (snd (checkVersion writing w currentVersion isPrerelease))) /\
  (forall body, reply e = ResponseOk body ->
     (exists latest,
        fst (getLatestRelease failing w includePrerelease) = Returned latest) /\
     (exists latest, fst (getLatestPrerelease failing w) = Returned latest) /\
     (exists result,
        fst (checkVersion failing w currentVersion isPrerelease) = Returned result)) /\
  self (clearCache failing w) = setCache (self w) None 0 /\
  self (clearCache failing w) = self (clearCache writing w).
Proof.
  intros failing writing.
  destruct (fetchAllReleases_write_error e w (Some message)) as (Hf1 & Hf2 & _).
  destruct (fetchAllReleases_write_error e w None) as (Hw1 & Hw2 & _).
  fold failing in Hf1, Hf2. fold writing in Hw1, Hw2.
  rewrite <- Hw1 in Hf1. rewrite <- Hw2 in Hf2. clear Hw1 Hw2.
  split; [|split; [|split; [|split; [|split]]]].
  - rewrite !getLatestRelease_of_fetch_world.
    destruct (fetchAllReleases failing w) as [[x|x] wf],
             (fetchAllReleases writing w) as [[y|y] ww];
      simpl in *; try discriminate; split; congruence.
  - rewrite !getLatestPrerelease_of_fetch.
    destruct (fetchAllReleases failing w) as [[x|x] wf],
             (fetchAllReleases writing w) as [[y|y] ww];
      simpl in *; try discriminate; split; congruence.
  - unfold checkVersion.
    destruct (fetchAllReleases failing w) as [[x|x] wf],
             (fetchAllReleases writing w) as [[y|y] ww];
      simpl in *; try discriminate; split; congruence.
  - intros body Hreply.
    assert (Hok : exists releases, fst (fetchAllReleases failing w) = Returned releases).
    { unfold fetchAllReleases, fetchFromSource; simpl. rewrite Hreply.
      destruct (cachedReleases (self w)) as [cached|];
        [destruct (_ && _)|]; simpl; eauto. }
    destruct Hok as (releases & Hok).
    rewrite getLatestRelease_of_fetch, getLatestPrerelease_of_fetch.
    unfold checkVersion.
    destruct (fetchAllReleases failing w) as [[x|x] wf]; simpl in *;
      [|discriminate].
    repeat split; eexists; reflexivity.
  - unfold clearCache. now rewrite (proj1 (saveCacheToDisk_memory _ _)).
  - unfold clearCache. now rewrite !(proj1 (saveCacheToDisk_memory _ _)).
Qed.

End Properties.

(* ===================================================================== *)
(** ** The theorems at work on the releases of the unit tests *)
(* ===================================================================== *)

Ltac refute_each :=
  let H := fresh in
  simpl; intros ? H;
  repeat (destruct H as [<-|H]; [vm_compute; discriminate|]);
  destruct H.

Lemma mockReleases_validDate : Forall (validDate (D:=isoDate)) mockReleases.
Proof. repeat constructor; vm_compute; discriminate. Defined.

(** The test "should fetch and return the latest stable release". *)
Lemma getLatestRelease_returns_latest_witness :
  exists latest,
    fst (getLatestRelease (D:=isoDate) (testEnv false) (freshWorld 60000 None) false)
      = Returned latest /\
    latestAmong (D:=isoDate) false mockReleases latest.
Proof.
  apply (getLatestRelease_returns_latest (D:=isoDate)
           (testEnv false) (freshWorld 60000 None) false mockReleases).
  - reflexivity.
  - reflexivity.
  - exact mockReleases_validDate.
Defined.

(** The test with the tag [v0.0.1], which the feed does not list. *)
Lemma checkVersion_unknown_version_witness :
  checkVersion (D:=isoDate) (testEnv false) (freshWorld 0 None) (js "v0.0.1") false =
  (Returned {| updateAvailable := true;
               currentVersion := js "v0.0.1";
               latestVersion := Some (js "v2.0.0");
               latestRelease := Some (toRelease v2_0_0) |},
   snd (fetchAllReleases (D:=isoDate) (testEnv false) (freshWorld 0 None))).
Proof.
  apply (checkVersion_unknown_version (D:=isoDate)
           (testEnv false) (freshWorld 0 None) _ (js "v0.0.1") false
           [v2_0_0; v2_0_0_beta_1; v1_5_0; v1_4_0] v2_0_0).
  - reflexivity.
  - discriminate.
  - exists [], [v2_0_0_beta_1; v1_5_0; v1_4_0].
    split; [reflexivity|]. split; [now split|]. intros y [].
  - unfold matchesVerbatim. refute_each.
  - unfold matchesNormalized. refute_each.
Defined.

(** The test "should detect when update is available based on publish
    date": [v1.5.0] against [v2.0.0]. *)
Lemma checkVersion_compares_timestamps_witness :
  exists result,
    checkVersion (D:=isoDate) (testEnv false) (freshWorld 0 None) (js "v1.5.0") false
      = (Returned result,
         snd (fetchAllReleases (D:=isoDate) (testEnv false) (freshWorld 0 None))) /\
    (updateAvailable result = true <-> publishedBefore (D:=isoDate) v1_5_0 v2_0_0) /\
    (@getTime isoDate (published_at v1_5_0) = @getTime isoDate (published_at v2_0_0)
     -> updateAvailable result = false).
Proof.
  apply (checkVersion_compares_timestamps (D:=isoDate)
           (testEnv false) (freshWorld 0 None) _ (js "v1.5.0") false
           [v2_0_0; v2_0_0_beta_1; v1_5_0; v1_4_0] v1_5_0 v2_0_0).
  - reflexivity.
  - reflexivity.
  - reflexivity.
Defined.

(** Two tags that differ by the [v] prefix: the source lists [v1.0.0]
    (published first) and [1.0.0]; the caller runs [v1.0.0]. *)
Lemma checkVersion_first_match_wins_witness :
  findCurrentRelease (js "v1.0.0") ([] ++ plain_1_0_0 :: [v1_0_0]) = Some plain_1_0_0.
Proof.
  apply (checkVersion_first_match_wins (js "v1.0.0") [] [v1_0_0] plain_1_0_0).
  - intros r [].
  - right. reflexivity.
Defined.

(** C4 fails on that feed: [1.0.0], which matches only after normalization,
    is taken for the current release although [v1.0.0] matches verbatim; the
    version measured against itself, no update is reported. *)
Lemma checkVersion_verbatim_not_preferred :
  let e := envReturning [v1_0_0; plain_1_0_0] 1704844800000 in
  let releases := Array_sort (byPublishedDesc (D:=isoDate)) [v1_0_0; plain_1_0_0] in
  fst (fetchAllReleases (D:=isoDate) e (freshWorld 0 None)) = Returned releases /\
  releases = [plain_1_0_0; v1_0_0] /\
  findCurrentRelease (js "v1.0.0") releases = Some plain_1_0_0 /\
  ~ verbatimPreferred (js "v1.0.0") releases
      (findCurrentRelease (js "v1.0.0") releases) /\
  fst (checkVersion (D:=isoDate) e (freshWorld 0 None) (js "v1.0.0") false) =
    Returned {| updateAvailable := false;
                currentVersion := js "v1.0.0";
                latestVersion := Some (js "1.0.0");
                latestRelease := Some (toRelease plain_1_0_0) |}.
Proof.
  repeat split; try reflexivity.
  intros H.
  specialize (H plain_1_0_0 v1_0_0).
  assert (Hsel : findCurrentRelease (js "v1.0.0") [plain_1_0_0; v1_0_0] = Some v1_0_0).
  { apply H.
    - now left.
    - right; now left.
    - vm_compute; discriminate.
    - reflexivity.
    - reflexivity. }
  vm_compute in Hsel. discriminate Hsel.
Qed.

(** C10 on the releases of the tests: [v1.4.0] is a draft, and still the
    release that the version [v1.4.0] is dated by. *)
Lemma checkVersion_match_ignores_flags_witness :
  findCurrentRelease (js "v1.4.0") ([v2_0_0; v2_0_0_beta_1; v1_5_0] ++ v1_4_0 :: [])
    = Some v1_4_0 /\
  exists result,
    checkVersion (D:=isoDate) (testEnv false) (freshWorld 0 None) (js "v1.4.0") false
      = (Returned result,
         snd (fetchAllReleases (D:=isoDate) (testEnv false) (freshWorld 0 None))) /\
    updateAvailable result =
      isVersionOlder (D:=isoDate) (published_at v1_4_0) (published_at v2_0_0) /\
    (updateAvailable result = true <-> publishedBefore (D:=isoDate) v1_4_0 v2_0_0).
Proof.
  apply (checkVersion_match_ignores_flags (D:=isoDate)
           (testEnv false) (freshWorld 0 None) _ (js "v1.4.0") false
           [v2_0_0; v2_0_0_beta_1; v1_5_0] [] v1_4_0 v2_0_0).
  - reflexivity.
  - unfold matchesTag, matchesVerbatim, matchesNormalized.
    simpl; intros r H.
    repeat (destruct H as [<-|H];
            [intros [E|E]; vm_compute in E; discriminate E|]).
    destruct H.
  - left. reflexivity.
  - left. reflexivity.
  - reflexivity.
Defined.

(** The world after the first [getLatestRelease()] of a notifier that keeps
    a cache file. *)
Lemma clearCache_resets_to_absent_witness :
  let fetched :=
    snd (getLatestRelease (D:=isoDate) (testEnv false)
           (freshWorld 60000 (Some cachePath)) false) in
  cachedReleases (self (clearCache (testEnv false) fetched)) = None /\
  lastFetchTime (self (clearCache (testEnv false) fetched)) = 0 /\
  disk (clearCache (testEnv false) fetched) = FileJson (cacheToJson emptyCacheData).
Proof.
  intros fetched.
  destruct (clearCache_resets_to_absent (testEnv false) fetched)
    as (Hcache & Htime & _ & Hdisk & _).
  split; [exact Hcache|]. split; [exact Htime|].
  apply Hdisk; reflexivity.
Defined.

(** C5 fails there: the cache was populated, and after [clearCache()] the
    fields do not hold an empty list: they are those of the notifier before
    its first fetch. *)
Lemma clearCache_not_empty_but_present :
  let fetched :=
    snd (getLatestRelease (D:=isoDate) (testEnv false)
           (freshWorld 60000 (Some cachePath)) false) in
  let cleared := clearCache (testEnv false) fetched in
  cachedReleases (self fetched) = Some sortedMockReleases /\
  ~ emptyButPresent (self cleared) /\
  self cleared = testNotifier 60000 (Some cachePath).
Proof.
  repeat split.
  intros [H _]. vm_compute in H. discriminate H.
Qed.

Lemma releaseOfJson_releaseToJson (r : GitHubReleaseResponse) :
  releaseOfJson (releaseToJson r) = Some r.
Proof. destruct r as [t [n|] u p pre d]; reflexivity. Qed.

Lemma releasesOfJson_releaseToJson (rs : list GitHubReleaseResponse) :
  releasesOfJson (map releaseToJson rs) = Some rs.
Proof.
  induction rs as [|r rs IH]; [reflexivity|].
  cbn [map releasesOfJson]. now rewrite releaseOfJson_releaseToJson, IH.
Qed.

(** What [saveCacheToDisk] writes is a well-formed entry. *)
Lemma cacheOfJson_cacheToJson (c : CacheData) : cacheOfJson (cacheToJson c) = Some c.
Proof.
  destruct c as [t rs].
  change (cacheOfJson (cacheToJson (mkCacheData t rs)))
    with (match releasesOfJson (map releaseToJson rs) with
          | Some rs' => Some (mkCacheData t rs')
          | None => None
          end).
  now rewrite releasesOfJson_releaseToJson.
Qed.

(** Construction on an unparsable file, and on the file an earlier notifier
    saved. *)
Lemma constructor_loads_unvalidated_witness :
  cacheAbsent (constructor testConfig FileUnparsable) /\
  cacheAbsent (constructor testConfig FileMissing) /\
  (o_cachedReleases (constructor testConfig fileWithoutLastFetchTime) = VArray [] /\
   o_lastFetchTime (constructor testConfig fileWithoutLastFetchTime) = VUndefined) /\
  typed (constructor testConfig (FileJson (cacheToJson savedCache))) =
    Some {| repo := js "test/repo"; checkInterval := 60000;
            cacheFilePath := Some cachePath; token := None;
            cachedReleases := Some sortedMockReleases;
            lastFetchTime := 1704844800000 |}.
Proof.
  split; [|split; [|split]].
  - destruct (constructor_loads_unvalidated testConfig FileUnparsable)
      as (_ & Hthrow & Hbad & _).
    apply Hbad. right; left; reflexivity.
  - destruct (constructor_loads_unvalidated testConfig FileMissing) as (Hmissing & _).
    apply Hmissing. right; reflexivity.
  - destruct (constructor_loads_unvalidated testConfig fileWithoutLastFetchTime)
      as (_ & _ & _ & Hfields & _).
    apply (Hfields (VObject [ (js "releases", VArray []) ])); reflexivity.
  - destruct (constructor_loads_unvalidated testConfig
                (FileJson (cacheToJson savedCache)))
      as (_ & _ & _ & _ & Hentry).
    destruct (Hentry (cacheToJson savedCache) savedCache) as [_ Htyped].
    + reflexivity.
    + reflexivity.
    + apply cacheOfJson_cacheToJson.
    + exact Htyped.
Defined.

(** C6 fails on a file that parses but holds one field only: construction
    leaves a fetch time without a release list, or a release list without a
    fetch time. *)
Lemma constructor_partial_cache :
  let o1 := constructor testConfig fileWithoutReleases in
  let o2 := constructor testConfig fileWithoutLastFetchTime in
  (o_cachedReleases o1 = VUndefined /\ o_lastFetchTime o1 = VNumber 1704844800000 /\
   ~ allOrNothing o1) /\
  (o_cachedReleases o2 = VArray [] /\ o_lastFetchTime o2 = VUndefined /\
   ~ allOrNothing o2).
Proof.
  repeat split.
  - intros [[H _]|(l & rs & t & H & _)]; vm_compute in H; discriminate H.
  - intros [[H _]|(l & rs & t & _ & _ & H)]; vm_compute in H; discriminate H.
Qed.

(** The tests of the caching: a second call one second after the first
    fetch, a call when the minute of the interval is over, and a call of a
    notifier whose interval is 0. *)
Lemma cache_window_decides_fetch_witness :
  let fetched :=
    snd (getLatestRelease (D:=isoDate) (testEnv false) (freshWorld 60000 None) false) in
  let uncached :=
    snd (getLatestRelease (D:=isoDate) (testEnv false) (freshWorld 0 None) false) in
  let soon := envReturning mockReleases (1704844800000 + 1000) in
  let late := envReturning mockReleases (1704844800000 + 60000) in
  (getLatestRelease (D:=isoDate) soon fetched false
     = (Returned (Some (toRelease v2_0_0)), fetched) /\
   getLatestPrerelease (D:=isoDate) soon fetched
     = (Returned (Some (toRelease v2_0_0_beta_1)), fetched) /\
   checkVersion (D:=isoDate) soon fetched (js "v1.5.0") false
     = (Returned (checkVersionAgainst (D:=isoDate) sortedMockReleases (js "v1.5.0") false),
        fetched)) /\
  (requests (snd (getLatestRelease (D:=isoDate) late fetched false))
     = requestFor (self fetched) :: requests fetched /\
   requests (snd (getLatestPrerelease (D:=isoDate) late fetched))
     = requestFor (self fetched) :: requests fetched /\
   requests (snd (checkVersion (D:=isoDate) late fetched (js "v1.5.0") false))
     = requestFor (self fetched) :: requests fetched) /\
  (requests (snd (getLatestRelease (D:=isoDate) soon uncached false))
     = requestFor (self uncached) :: requests uncached /\
   requests (snd (getLatestPrerelease (D:=isoDate) soon uncached))
     = requestFor (self uncached) :: requests uncached /\
   requests (snd (checkVersion (D:=isoDate) soon uncached (js "v1.5.0") false))
     = requestFor (self uncached) :: requests uncached).
Proof.
  intros fetched uncached soon late.
  split; [|split].
  - destruct (cache_window_decides_fetch (D:=isoDate) soon fetched false
                (js "v1.5.0") false) as [Hfresh _].
    apply (Hfresh sortedMockReleases).
    + reflexivity.
    + reflexivity.
    + reflexivity.
  - destruct (cache_window_decides_fetch (D:=isoDate) late fetched false
                (js "v1.5.0") false) as [_ Hstale].
    apply Hstale. right. vm_compute. discriminate.
  - destruct (cache_window_decides_fetch (D:=isoDate) soon uncached false
                (js "v1.5.0") false) as [_ Hstale].
    apply Hstale. left. vm_compute. discriminate.
Defined.

(** The releases handed out on the feed of the tests. *)
Lemma operations_never_expose_draft_witness :
  Release.draft (toRelease v2_0_0) = false /\
  (Release.draft (toRelease v2_0_0_beta_1) = false /\
   Release.prerelease (toRelease v2_0_0_beta_1) = true) /\
  Release.draft (toRelease v2_0_0) = false.
Proof.
  destruct (operations_never_expose_draft (D:=isoDate) (testEnv false)
              (freshWorld 60000 None)) as (Hlatest & Hpre & Hcheck).
  split; [|split].
  - apply (Hlatest true). reflexivity.
  - apply Hpre. reflexivity.
  - apply (Hcheck (js "v1.5.0") false
             (checkVersionAgainst (D:=isoDate) sortedMockReleases (js "v1.5.0") false)).
    + reflexivity.
    + reflexivity.
Defined.

(** A notifier whose cache file cannot be written: the fetch goes through,
    the operations return, the file stays as it was. *)
Lemma write_failure_never_propagates_witness :
  let w := freshWorld 60000 (Some cachePath) in
  let failing := withWriteError (testEnv false) (Some (js "EACCES: permission denied")) in
  (exists latest, fst (getLatestRelease (D:=isoDate) failing w false) = Returned latest) /\
  (exists latest, fst (getLatestPrerelease (D:=isoDate) failing w) = Returned latest) /\
  (exists result,
     fst (checkVersion (D:=isoDate) failing w (js "v1.5.0") false) = Returned result) /\
  self (clearCache failing w) = setCache (self w) None 0.
Proof.
  intros w failing.
  destruct (write_failure_never_propagates (D:=isoDate) (testEnv false) w
              (js "EACCES: permission denied") false (js "v1.5.0") false)
    as (_ & _ & _ & Hreturns & Hclear & _).
  destruct (Hreturns mockReleases eq_refl) as (H1 & H2 & H3).
  split; [exact H1|]. split; [exact H2|]. split; [exact H3|exact Hclear].
Defined.

(** The failed write of that notifier leaves no file, the successful one
    the sorted releases and the time of the fetch. *)
Example write_failure_disk :
  disk (snd (getLatestRelease (D:=isoDate) (testEnv true)
               (freshWorld 60000 (Some cachePath)) false)) = FileMissing /\
  disk (snd (getLatestRelease (D:=isoDate) (testEnv false)
               (freshWorld 60000 (Some cachePath)) false))
    = FileJson (cacheToJson savedCache).
Proof. split; reflexivity. Qed.

(** The normalizations that the specification lists. *)
Example normalizeVersion_examples :
  normalizeVersion (js "v1.2.3") = js "1.2.3" /\
  normalizeVersion (js "1.2.3") = js "1.2.3" /\
  normalizeVersion (js " V2.0.0 ") = js "2.0.0".
Proof. repeat split. Qed.

(** The dates of the tests, in milliseconds since the epoch. *)
Example isoTime_examples :
  isoTime (js "1970-01-01T00:00:00Z") = Some 0 /\
  isoTime (js "2024-01-01T00:00:00Z") = Some 1704067200000 /\
  isoTime (js "2024-01-10T00:00:00Z") = Some 1704844800000 /\
  isoTime (js "not a date") = None.
Proof. repeat split. Qed.

(** On the releases of the tests, the sort gives the order of publication,
    latest first. *)
Example mockReleases_sorted :
  Array_sort (byPublishedDesc (D:=isoDate)) mockReleases = sortedMockReleases.
Proof. reflexivity. Qed.

(* ===================================================================== *)
(** ** Further properties: versions and dates *)
(* ===================================================================== *)

Lemma trimStart_whitespace (ws s : jsstring) :
  allWhiteSpace ws -> trimStart (ws ++ s) = trimStart s.
Proof.
  induction 1 as [|c ws Hc _ IH]; simpl; [reflexivity|]. now rewrite Hc.
Qed.

Lemma trimStart_all_whitespace (ws : jsstring) :
  allWhiteSpace ws -> trimStart ws = [].
Proof.
  intros H. rewrite <- (app_nil_r ws). now rewrite trimStart_whitespace.
Qed.

Lemma trimStart_snoc (s : jsstring) (c : N) :
  isWhiteSpace c = false -> trimStart (s ++ [c]) = trimStart s ++ [c].
Proof.
  intros Hc. induction s as [|x s IH]; simpl.
  - now rewrite Hc.
  - destruct (isWhiteSpace x); [exact IH|reflexivity].
Qed.

Lemma allWhiteSpace_rev (ws : jsstring) : allWhiteSpace ws -> allWhiteSpace (rev ws).
Proof. apply Forall_rev. Qed.

Lemma trimEnd_whitespace (s ws : jsstring) :
  allWhiteSpace ws -> trimEnd (s ++ ws) = trimEnd s.
Proof.
  intros H. unfold trimEnd. rewrite rev_app_distr.
  now rewrite trimStart_whitespace by now apply allWhiteSpace_rev.
Qed.

Lemma trimEnd_cons (c : N) (s : jsstring) :
  isWhiteSpace c = false -> trimEnd (c :: s) = c :: trimEnd s.
Proof.
  intros Hc. unfold trimEnd. simpl rev.
  rewrite (trimStart_snoc _ _ Hc), rev_app_distr. reflexivity.
Qed.

(** White space after a text is dropped either when the text starts or at
    its end. *)
Lemma trim_trailing (s ws : jsstring) :
  allWhiteSpace ws -> trim (s ++ ws) = trim s.
Proof.
  intros H. unfold trim. induction s as [|x s IH]; simpl.
  - now rewrite (trimStart_all_whitespace _ H).
  - destruct (isWhiteSpace x); [exact IH|].
    now rewrite app_comm_cons, trimEnd_whitespace.
Qed.

Lemma letterV_not_whitespace (c : N) : isLetterV c -> isWhiteSpace c = false.
Proof. intros [-> | ->]; reflexivity. Qed.

Lemma letterV_stripped (c : N) (s : jsstring) :
  isLetterV c -> stripLeadingV (c :: s) = s.
Proof. intros [-> | ->]; reflexivity. Qed.

(** X1. [normalizeVersion] ignores white space around the version, and
    removes one leading [v] or [V] and no more: what follows the letter is
    kept as it is, but for white space at its end. *)
Theorem normalizeVersion_whitespace_and_prefix (ws ws' s : jsstring) (c : N) :
  allWhiteSpace ws -> allWhiteSpace ws' -> isLetterV c ->
  normalizeVersion (ws ++ s ++ ws') = normalizeVersion s /\
  normalizeVersion (ws ++ c :: s ++ ws') = trimEnd s.
Proof.
  intros Hws Hws' Hc. unfold normalizeVersion. split.
  - f_equal. unfold trim at 1. rewrite (trimStart_whitespace _ _ Hws).
    now apply trim_trailing.
  - unfold trim. rewrite (trimStart_whitespace _ _ Hws). simpl trimStart.
    rewrite (letterV_not_whitespace _ Hc).
    rewrite (trimEnd_cons _ _ (letterV_not_whitespace _ Hc)).
    rewrite (letterV_stripped _ _ Hc).
    now apply trimEnd_whitespace.
Qed.

Lemma normalizeVersion_whitespace_and_prefix_witness :
  normalizeVersion (js "  " ++ js "v1.2.3" ++ js " ") = normalizeVersion (js "v1.2.3") /\
  normalizeVersion (js "  " ++ 86%N :: js "v1.2.3" ++ js " ") = trimEnd (js "v1.2.3").
Proof.
  apply (normalizeVersion_whitespace_and_prefix (js "  ") (js " ") _ 86%N).
  - repeat constructor.
  - repeat constructor.
  - right. reflexivity.
Defined.

Section FurtherProperties.
Context {D : DateParser}.

Lemma findCurrentRelease_normalized (currentVersion : jsstring)
  (releases : list GitHubReleaseResponse) :
  findCurrentRelease currentVersion releases =
  find (fun r => jsstring_eqb (normalizeVersion (tag_name r))
                              (normalizeVersion currentVersion)) releases.
Proof.
  unfold findCurrentRelease. induction releases as [|r rs IH]; [reflexivity|].
  simpl. rewrite IH.
  destruct (jsstring_eqb (normalizeVersion (tag_name r)) _) eqn:En; [reflexivity|].
  destruct (jsstring_eqb (tag_name r) currentVersion) eqn:Ev; [|reflexivity].
  apply jsstring_eqb_eq in Ev. rewrite Ev in En.
  apply jsstring_eqb_neq in En. now contradiction En.
Qed.

Lemma checkVersionAgainst_normalized (releases : list GitHubReleaseResponse)
  (version version' : jsstring) (isPrerelease : bool) :
  normalizeVersion version = normalizeVersion version' ->
  sameVerdict (checkVersionAgainst releases version isPrerelease)
              (checkVersionAgainst releases version' isPrerelease).
Proof.
  intros Hn. unfold checkVersionAgainst.
  rewrite !findCurrentRelease_normalized, Hn.
  destruct (List.length releases =? 0)%nat; [now repeat split|].
  destruct (findLatestRelease isPrerelease releases); [|now repeat split].
  destruct (find _ releases); now repeat split.
Qed.

(** X2. The verdict of [checkVersion] depends on [currentVersion] through
    its normalization only: two spellings with the same normalization (with
    or without the [v], with or without white space around) get the same
    [updateAvailable], [latestVersion] and [latestRelease], or the same
    error, and leave the same state. *)
Theorem checkVersion_up_to_normalization (e : Env) (w : World)
  (version version' : jsstring) (isPrerelease : bool) :
  normalizeVersion version = normalizeVersion version' ->
  snd (checkVersion e w version isPrerelease)
    = snd (checkVersion e w version' isPrerelease) /\
  match fst (checkVersion e w version isPrerelease),
        fst (checkVersion e w version' isPrerelease) with
  | Returned result, Returned result' =>
      sameVerdict result result' /\
      currentVersion result = version /\ currentVersion result' = version'
  | Threw message, Threw message' => message = message'
  | _, _ => False
  end.
Proof.
  intros Hn. unfold checkVersion.
  destruct (fetchAllReleases e w) as [[releases|message] w']; simpl;
    [|now split].
  split; [reflexivity|]. split; [now apply checkVersionAgainst_normalized|].
  unfold checkVersionAgainst.
  split; destruct (List.length releases =? 0)%nat; try reflexivity;
    destruct (findLatestRelease isPrerelease releases); try reflexivity;
    destruct (findCurrentRelease _ releases); reflexivity.
Qed.

(** X3. [isVersionOlder] is a strict order on dates: no date is older than
    itself, two dates are never each older than the other, and older than
    is transitive; an invalid date is older than none and none is older
    than it. *)
Theorem isVersionOlder_strict_order (a b c : jsstring) :
  isVersionOlder a a = false /\
  (isVersionOlder a b = true -> isVersionOlder b a = false) /\
  (isVersionOlder a b = true -> isVersionOlder b c = true ->
   isVersionOlder a c = true) /\
  (getTime a = None -> isVersionOlder a b = false /\ isVersionOlder b a = false).
Proof.
  unfold isVersionOlder.
  destruct (getTime a) as [ta|], (getTime b) as [tb|], (getTime c) as [tc|];
    repeat split; try discriminate; try reflexivity;
    rewrite ?Z.ltb_lt, ?Z.ltb_ge, ?Z.ltb_irrefl; try reflexivity; try lia.
Qed.

(* ===================================================================== *)
(** ** Further properties: the fetched list *)
(* ===================================================================== *)

Lemma operations_world (e : Env) (w : World) (includePrerelease : bool)
  (currentVersion : jsstring) (isPrerelease : bool) :
  snd (getLatestRelease e w includePrerelease) = snd (fetchAllReleases e w) /\
  snd (getLatestPrerelease e w) = snd (fetchAllReleases e w) /\
  snd (checkVersion e w currentVersion isPrerelease) = snd (fetchAllReleases e w).
Proof.
  rewrite getLatestRelease_of_fetch_world, getLatestPrerelease_of_fetch.
  unfold checkVersion.
  now destruct (fetchAllReleases e w) as [[releases|message] w'].
Qed.

Lemma fetchFromSource_stores (e : Env) (w : World) (body : list GitHubReleaseResponse) :
  reply e = ResponseOk body ->
  fetchFromSource e w =
  (Returned (Array_sort byPublishedDesc body),
   saveCacheToDisk e
     (mkWorld (setCache (self w) (Some (Array_sort byPublishedDesc body)) (now e))
              (disk w) (requestFor (self w) :: requests w))).
Proof. unfold fetchFromSource. now intros ->. Qed.

Lemma fetchFromSource_memory (e : Env) (w : World) (body : list GitHubReleaseResponse) :
  reply e = ResponseOk body ->
  self (snd (fetchFromSource e w))
    = setCache (self w) (Some (Array_sort byPublishedDesc body)) (now e).
Proof.
  intros Hreply. rewrite (fetchFromSource_stores _ _ _ Hreply). simpl.
  now rewrite (proj1 (saveCacheToDisk_memory _ _)).
Qed.



Lemma sortCompare_descending (x y : GitHubReleaseResponse) :
  descending publishedTime x y -> sortCompare byPublishedDesc x y <= 0.
Proof.
  unfold descending, publishedTime, sortCompare, byPublishedDesc.
  destruct (getTime (published_at y)), (getTime (published_at x)); lia.
Qed.

Lemma Array_sort_sorted_id (l : list GitHubReleaseResponse) :
  StronglySorted (descending publishedTime) l -> Array_sort byPublishedDesc l = l.
Proof.
  induction 1 as [|x l Hs IH Hx]; [reflexivity|].
  cbn [Array_sort fold_right]. fold (Array_sort byPublishedDesc l). rewrite IH.
  destruct l as [|y l]; [reflexivity|].
  cbn [sortInsert]. inversion Hx as [|? ? Hxy _]; subst.
  apply sortCompare_descending in Hxy.
  apply Z.leb_le in Hxy. now rewrite Hxy.
Qed.

Lemma Array_sort_published (l : list GitHubReleaseResponse) :
  Forall validDate l ->
  StronglySorted (descending publishedTime) (Array_sort byPublishedDesc l).
Proof.
  apply (Array_sort_sorted byPublishedDesc publishedTime validDate byPublishedDesc_key).
Qed.

(** X4. A fetch stores what it returns: when an operation consults the
    source and gets a release list, the list it works on is a permutation of
    the source's (no release lost, none added), in descending order of
    publication when the dates are valid, and it is that list, with the time
    of the call, that the cache holds afterwards. *)
Theorem fetch_caches_sorted_permutation (e : Env) (w : World)
  (body : list GitHubReleaseResponse)
  (includePrerelease : bool) (currentVersion : jsstring) (isPrerelease : bool) :
  cacheFresh (self w) (now e) = false ->
  reply e = ResponseOk body ->
  exists releases,
    fst (fetchAllReleases e w) = Returned releases /\
    Permutation releases body /\
    (Forall validDate body -> StronglySorted (descending publishedTime) releases) /\
    forall w',
      w' = snd (getLatestRelease e w includePrerelease) \/
      w' = snd (getLatestPrerelease e w) \/
      w' = snd (checkVersion e w currentVersion isPrerelease) ->
      cachedReleases (self w') = Some releases /\ lastFetchTime (self w') = now e.
Proof.
  intros Hstale Hreply.
  exists (Array_sort byPublishedDesc body).
  destruct (operations_world e w includePrerelease currentVersion isPrerelease)
    as (H1 & H2 & H3).
  rewrite (fetchAllReleases_stale _ _ Hstale) in *.
  split; [now apply fetchFromSource_ok|].
  split; [apply Array_sort_perm|].
  split; [apply Array_sort_published|].
  intros w' Hw'.
  assert (w' = snd (fetchFromSource e w)) as -> by (destruct Hw' as [->|[->| ->]]; assumption).
  now rewrite (fetchFromSource_memory _ _ _ Hreply).
Qed.


(** X6. A release list that the source already gives latest first is kept
    in the source's order. *)
Theorem fetch_keeps_sorted_feed (e : Env) (w : World)
  (body : list GitHubReleaseResponse) :
  cacheFresh (self w) (now e) = false ->
  reply e = ResponseOk body ->
  Forall validDate body ->
  StronglySorted (descending publishedTime) body ->
  fst (fetchAllReleases e w) = Returned body /\
  cachedReleases (self (snd (fetchAllReleases e w))) = Some body.
Proof.
  intros Hstale Hreply _ Hsorted.
  rewrite (fetchAllReleases_stale _ _ Hstale).
  rewrite (fetchFromSource_memory _ _ _ Hreply), (fetchFromSource_ok _ _ _ Hreply).
  now rewrite (Array_sort_sorted_id _ Hsorted).
Qed.

Lemma fetchAllReleases_cacheSorted (e : Env) (w : World) :
  cacheSorted (self w) ->
  (forall body, reply e = ResponseOk body -> Forall validDate body) ->
  cacheSorted (self (snd (fetchAllReleases e w))).
Proof.
  intros Hinv Hvalid.
  destruct (cacheFresh (self w) (now e)) eqn:Hfresh.
  - destruct (fetchAllReleases_fresh _ _ Hfresh) as (cached & _ & ->). exact Hinv.
  - rewrite (fetchAllReleases_stale _ _ Hfresh).
    destruct (reply e) as [m|st txt|m|body] eqn:Hreply;
      try (unfold fetchFromSource; rewrite Hreply; exact Hinv).
    rewrite (fetchFromSource_memory _ _ _ Hreply).
    unfold cacheSorted; simpl. apply Array_sort_published. now apply Hvalid.
Qed.

(** X7. The cached list stays sorted: if the cache is absent or holds a
    list in descending order of publication, it is so again after any of the
    three operations (the dates of a list that the source returns being
    valid) and after [clearCache]. *)
Theorem operations_keep_cache_sorted (e : Env) (w : World)
  (includePrerelease : bool) (currentVersion : jsstring) (isPrerelease : bool) :
  cacheSorted (self w) ->
  (forall body, reply e = ResponseOk body -> Forall validDate body) ->
  cacheSorted (self (snd (getLatestRelease e w includePrerelease))) /\
  cacheSorted (self (snd (getLatestPrerelease e w))) /\
  cacheSorted (self (snd (checkVersion e w currentVersion isPrerelease))) /\
  cacheSorted (self (clearCache e w)).
Proof.
  intros Hinv Hvalid.
  destruct (operations_world e w includePrerelease currentVersion isPrerelease)
    as (-> & -> & ->).
  pose proof (fetchAllReleases_cacheSorted e w Hinv Hvalid) as H.
  repeat split; try exact H.
  unfold clearCache. rewrite (proj1 (saveCacheToDisk_memory _ _)). exact I.
Qed.

(* ===================================================================== *)
(** ** Further properties: the cache across calls and processes *)
(* ===================================================================== *)

Lemma setCache_configuration (n : ReleaseNotifier)
  (rs : option (list GitHubReleaseResponse)) (t : Z) :
  sameConfiguration (setCache n rs t) n.
Proof. now repeat split. Qed.

Lemma requestFor_configuration (a b : ReleaseNotifier) :
  sameConfiguration a b -> requestFor a = requestFor b.
Proof. unfold requestFor. now intros (-> & _ & _ & ->). Qed.

Lemma fetchAllReleases_returns (e : Env) (w : World)
  (releases : list GitHubReleaseResponse) (w' : World)
  (includePrerelease : bool) (currentVersion : jsstring) (isPrerelease : bool) :
  fetchAllReleases e w = (Returned releases, w') ->
  getLatestRelease e w includePrerelease =
    (Returned (option_map toRelease (find (validRelease includePrerelease) releases)), w') /\
  getLatestPrerelease e w =
    (Returned (option_map toRelease
                 (find (fun r => prerelease r && negb (draft r)) releases)), w') /\
  checkVersion e w currentVersion isPrerelease =
    (Returned (checkVersionAgainst releases currentVersion isPrerelease), w').
Proof.
  intros H. rewrite getLatestRelease_of_fetch_world, getLatestPrerelease_of_fetch.
  unfold checkVersion. now rewrite H.
Qed.

(** A world whose cache holds [releases] since the time [t] answers with
    them, unchanged, while less than the interval has elapsed. *)
Lemma fetchAllReleases_within_window (e : Env) (w : World)
  (releases : list GitHubReleaseResponse) :
  cachedReleases (self w) = Some releases ->
  0 < checkInterval (self w) ->
  now e - lastFetchTime (self w) < checkInterval (self w) ->
  fetchAllReleases e w = (Returned releases, w).
Proof.
  intros Hc Hpos Hwin.
  destruct (fetchAllReleases_fresh e w (cacheFresh_true _ _ _ Hc Hpos Hwin))
    as (cached & Hc' & ->).
  congruence.
Qed.

(** X8. Repeating a call within the interval changes nothing: after an
    operation that fetched a release list at time [now e1], each operation
    called less than [checkInterval] later returns what it returned (or would
    have returned) on the first call, sends no request, whatever the source
    would now reply, and leaves the state as it is. *)
Theorem repeated_call_within_interval (e1 e2 : Env) (w w1 : World)
  (body : list GitHubReleaseResponse)
  (includePrerelease includePrerelease1 : bool)
  (currentVersion currentVersion1 : jsstring) (isPrerelease isPrerelease1 : bool) :
  cacheFresh (self w) (now e1) = false ->
  reply e1 = ResponseOk body ->
  0 < checkInterval (self w) ->
  now e2 - now e1 < checkInterval (self w) ->
  w1 = snd (getLatestRelease e1 w includePrerelease1) \/
  w1 = snd (getLatestPrerelease e1 w) \/
  w1 = snd (checkVersion e1 w currentVersion1 isPrerelease1) ->
  getLatestRelease e2 w1 includePrerelease
    = (fst (getLatestRelease e1 w includePrerelease), w1) /\
  getLatestPrerelease e2 w1 = (fst (getLatestPrerelease e1 w), w1) /\
  checkVersion e2 w1 currentVersion isPrerelease
    = (fst (checkVersion e1 w currentVersion isPrerelease), w1).
Proof.
  intros Hstale Hreply Hpos Hwin Hw1.
  destruct (operations_world e1 w includePrerelease1 currentVersion1 isPrerelease1)
    as (H1 & H2 & H3).
  assert (Hw : w1 = snd (fetchAllReleases e1 w))
    by (destruct Hw1 as [->|[->| ->]]; assumption).
  clear Hw1 H1 H2 H3.
  assert (Hfirst : fetchAllReleases e1 w
                   = (Returned (Array_sort byPublishedDesc body), w1)).
  { rewrite Hw, (fetchAllReleases_stale _ _ Hstale).
    now rewrite (fetchFromSource_stores _ _ _ Hreply). }
  assert (Hself : self w1
                  = setCache (self w) (Some (Array_sort byPublishedDesc body)) (now e1)).
  { rewrite Hw, (fetchAllReleases_stale _ _ Hstale).
    now apply fetchFromSource_memory. }
  assert (Hsecond : fetchAllReleases e2 w1
                    = (Returned (Array_sort byPublishedDesc body), w1)).
  { apply fetchAllReleases_within_window; rewrite Hself; simpl; trivial. }
  destruct (fetchAllReleases_returns _ _ _ _ includePrerelease currentVersion
              isPrerelease Hfirst) as (-> & -> & ->).
  destruct (fetchAllReleases_returns _ _ _ _ includePrerelease currentVersion
              isPrerelease Hsecond) as (-> & -> & ->).
  now repeat split.
Qed.

(** X9. [clearCache] forces the next call to the source: whatever the state
    and the interval, the operation that follows [clearCache] sends a
    request; the notifier's configuration is not touched. *)
Theorem clearCache_forces_fetch (e0 e : Env) (w : World)
  (includePrerelease : bool) (currentVersion : jsstring) (isPrerelease : bool) :
  let cleared := clearCache e0 w in
  sameConfiguration (self cleared) (self w) /\
  requests (snd (getLatestRelease e cleared includePrerelease))
    = requestFor (self w) :: requests w /\
  requests (snd (getLatestPrerelease e cleared)) = requestFor (self w) :: requests w /\
  requests (snd (checkVersion e cleared currentVersion isPrerelease))
    = requestFor (self w) :: requests w.
Proof.
  intros cleared.
  assert (Hself : self cleared = setCache (self w) None 0).
  { unfold cleared, clearCache. now rewrite (proj1 (saveCacheToDisk_memory _ _)). }
  assert (Hreq : requests cleared = requests w).
  { unfold cleared, clearCache. now rewrite (proj2 (saveCacheToDisk_memory _ _)). }
  assert (Hcfg : sameConfiguration (self cleared) (self w)).
  { rewrite Hself. apply setCache_configuration. }
  split; [exact Hcfg|].
  destruct (operations_requests e cleared includePrerelease currentVersion isPrerelease)
    as (-> & -> & ->).
  assert (Hstale : cacheFresh (self cleared) (now e) = false)
    by (now rewrite Hself).
  rewrite (fetchAllReleases_stale _ _ Hstale), fetchFromSource_requests.
  now rewrite Hreq, (requestFor_configuration _ _ Hcfg).
Qed.

Lemma saveCacheToDisk_disk (e : Env) (w : World) :
  pathConfigured (cacheFilePath (self w)) = true -> writeError e = None ->
  disk (saveCacheToDisk e w) =
  FileJson (cacheToJson
              match cachedReleases (self w) with
              | None => emptyCacheData
              | Some rs => {| cd_lastFetchTime := lastFetchTime (self w); cd_releases := rs |}
              end).
Proof.
  intros Hpath Hwrite. unfold saveCacheToDisk, writeFileSync.
  rewrite Hpath, Hwrite. simpl. now destruct (cachedReleases (self w)).
Qed.

Lemma constructor_on_saved (config : Config.t) (c : CacheData) :
  pathConfigured (Config.cacheFilePath config) = true ->
  typed (constructor config (FileJson (cacheToJson c))) =
  Some {| repo := Config.repo config;
          checkInterval := match Config.checkInterval config with
                           | Some i => i
                           | None => 3600000
                           end;
          cacheFilePath := Config.cacheFilePath config;
          token := Config.token config;
          cachedReleases := Some (cd_releases c);
          lastFetchTime := cd_lastFetchTime c |}.
Proof.
  intros Hpath. unfold typed, constructor, loadCacheFromDisk. rewrite Hpath.
  cbn. now rewrite releasesOfJson_releaseToJson.
Qed.

(** X10. What a fetch saves, a later construction loads: when a path is
    configured and the write goes through, a notifier constructed on the
    cache file with the same path has well-typed fields, the release list
    that the first notifier cached and the time of its fetch. *)
Theorem saved_cache_loads_back (e : Env) (w : World)
  (body : list GitHubReleaseResponse) (config : Config.t) :
  cacheFresh (self w) (now e) = false ->
  reply e = ResponseOk body ->
  writeError e = None ->
  pathConfigured (cacheFilePath (self w)) = true ->
  Config.cacheFilePath config = cacheFilePath (self w) ->
  exists n,
    typed (constructor config (disk (snd (fetchAllReleases e w)))) = Some n /\
    cachedReleases n = cachedReleases (self (snd (fetchAllReleases e w))) /\
    cachedReleases n = Some (Array_sort byPublishedDesc body) /\
    lastFetchTime n = now e /\
    repo n = Config.repo config /\ token n = Config.token config.
Proof.
  intros Hstale Hreply Hwrite Hpath Hcfg.
  rewrite (fetchAllReleases_stale _ _ Hstale).
  rewrite (fetchFromSource_memory _ _ _ Hreply).
  rewrite (fetchFromSource_stores _ _ _ Hreply). cbn [snd].
  rewrite saveCacheToDisk_disk by assumption. cbn [self setCache cachedReleases lastFetchTime].
  rewrite constructor_on_saved by congruence.
  eexists. split; [reflexivity|]. now repeat split.
Qed.

(** X11. A second process within the interval does not fetch: started on
    the cache file that a fetch at time [now e1] saved, with a positive
    interval of its own, a notifier called less than that interval later
    sends no request and returns what the first notifier returned. *)
Theorem second_process_uses_saved_cache (e1 e2 : Env) (w : World)
  (body : list GitHubReleaseResponse) (config : Config.t)
  (includePrerelease : bool) (currentVersion : jsstring) (isPrerelease : bool) :
  cacheFresh (self w) (now e1) = false ->
  reply e1 = ResponseOk body ->
  writeError e1 = None ->
  pathConfigured (cacheFilePath (self w)) = true ->
  Config.cacheFilePath config = cacheFilePath (self w) ->
  0 < configuredInterval config ->
  now e2 - now e1 < configuredInterval config ->
  exists w2,
    startWorld config (disk (snd (fetchAllReleases e1 w))) = Some w2 /\
    getLatestRelease e2 w2 includePrerelease
      = (fst (getLatestRelease e1 w includePrerelease), w2) /\
    getLatestPrerelease e2 w2 = (fst (getLatestPrerelease e1 w), w2) /\
    checkVersion e2 w2 currentVersion isPrerelease
      = (fst (checkVersion e1 w currentVersion isPrerelease), w2) /\
    requests w2 = [].
Proof.
  intros Hstale Hreply Hwrite Hpath Hcfg Hpos Hwin.
  assert (Hfirst : fetchAllReleases e1 w
                   = (Returned (Array_sort byPublishedDesc body),
                      snd (fetchAllReleases e1 w))).
  { rewrite (fetchAllReleases_stale _ _ Hstale).
    now rewrite (fetchFromSource_stores _ _ _ Hreply). }
  assert (Hdisk : disk (snd (fetchAllReleases e1 w))
                  = FileJson (cacheToJson
                                {| cd_lastFetchTime := now e1;
                                   cd_releases := Array_sort byPublishedDesc body |})).
  { rewrite (fetchAllReleases_stale _ _ Hstale).
    rewrite (fetchFromSource_stores _ _ _ Hreply). cbn [snd].
    now rewrite saveCacheToDisk_disk by assumption. }
  unfold startWorld. rewrite Hdisk.
  rewrite constructor_on_saved by congruence.
  eexists. split; [reflexivity|].
  match goal with |- context [getLatestRelease e2 ?x _] => set (w2 := x) end.
  assert (Hsecond : fetchAllReleases e2 w2
                    = (Returned (Array_sort byPublishedDesc body), w2)).
  { apply fetchAllReleases_within_window; [reflexivity|exact Hpos|exact Hwin]. }
  destruct (fetchAllReleases_returns _ _ _ _ includePrerelease currentVersion
              isPrerelease Hfirst) as (-> & -> & ->).
  destruct (fetchAllReleases_returns _ _ _ _ includePrerelease currentVersion
              isPrerelease Hsecond) as (-> & -> & ->).
  now repeat split.
Qed.

(** X12. On disk a cleared cache is an entry that is there: a notifier
    constructed on the file that [clearCache] wrote holds an empty release
    list with fetch time 0, not the absent cache that [clearCache] leaves in
    memory. *)
Theorem cleared_file_loads_as_empty_entry (e : Env) (w : World) (config : Config.t) :
  writeError e = None ->
  pathConfigured (cacheFilePath (self w)) = true ->
  Config.cacheFilePath config = cacheFilePath (self w) ->
  cachedReleases (self (clearCache e w)) = None /\
  exists n,
    typed (constructor config (disk (clearCache e w))) = Some n /\
    cachedReleases n = Some [] /\ lastFetchTime n = 0.
Proof.
  intros Hwrite Hpath Hcfg. unfold clearCache.
  rewrite (proj1 (saveCacheToDisk_memory _ _)). split; [reflexivity|].
  rewrite saveCacheToDisk_disk by assumption. cbn [self setCache cachedReleases].
  rewrite constructor_on_saved by congruence.
  eexists. split; [reflexivity|]. now split.
Qed.

(* ===================================================================== *)
(** ** Further properties: failures, edge cases, results *)
(* ===================================================================== *)

Lemma fetchFromSource_fails (e : Env) (w : World) :
  replyFails (reply e) ->
  fetchFromSource e w = (Threw (fetchError (reply e)), afterRequest w).
Proof.
  unfold replyFails, fetchFromSource, afterRequest, fetchError.
  destruct (reply e) as [m|st txt|m|body]; intros H; try reflexivity.
  now contradiction (H body).
Qed.


(** X13. A failing source fails the call and nothing else: when an
    operation consults the source and the request is rejected, answered with
    a status that is not ok, or answered with a body that is not JSON, the
    operation throws the error of the fetch behind its own prefix; the
    cache in memory and the cache file are as before, whatever was cached is
    neither returned nor dropped, and one request has been sent. *)
Theorem failed_fetch_is_wrapped (e : Env) (w : World)
  (includePrerelease : bool) (currentVersion : jsstring) (isPrerelease : bool) :
  cacheFresh (self w) (now e) = false ->
  replyFails (reply e) ->
  getLatestRelease e w includePrerelease
    = (Threw (js "Failed to fetch releases: " ++ fetchError (reply e)), afterRequest w) /\
  getLatestPrerelease e w
    = (Threw (js "Failed to fetch prereleases: " ++ fetchError (reply e)),
       afterRequest w) /\
  checkVersion e w currentVersion isPrerelease
    = (Threw (js "Failed to check version: " ++ fetchError (reply e)), afterRequest w).
Proof.
  intros Hstale Hfails.
  rewrite getLatestRelease_of_fetch_world, getLatestPrerelease_of_fetch.
  unfold checkVersion.
  rewrite (fetchAllReleases_stale _ _ Hstale), (fetchFromSource_fails _ _ Hfails).
  now repeat split.
Qed.


Lemma find_all_false {A} (f : A -> bool) (l : list A) :
  (forall x, In x l -> f x = false) -> find f l = None.
Proof. apply find_none_iff. Qed.

(** X15. A feed with nothing published: when the release list is empty or
    lists drafts only, [getLatestRelease] (with either flag) and
    [getLatestPrerelease] return [null], and [checkVersion] reports no
    update and no release, whatever the version asked about. *)
Theorem unpublished_feed_gives_nothing (e : Env) (w w' : World)
  (releases : list GitHubReleaseResponse)
  (includePrerelease : bool) (currentVersion : jsstring) (isPrerelease : bool) :
  fetchAllReleases e w = (Returned releases, w') ->
  (forall r, In r releases -> draft r = true) ->
  getLatestRelease e w includePrerelease = (Returned None, w') /\
  getLatestPrerelease e w = (Returned None, w') /\
  checkVersion e w currentVersion isPrerelease = (Returned (noRelease currentVersion), w').
Proof.
  intros Hfetch Hdrafts.
  destruct (fetchAllReleases_returns _ _ _ _ includePrerelease currentVersion
              isPrerelease Hfetch) as (-> & -> & ->).
  rewrite (find_all_false (validRelease includePrerelease) releases),
          (find_all_false (fun r => prerelease r && negb (draft r)) releases).
  - repeat split. f_equal. unfold checkVersionAgainst, noRelease.
    destruct (List.length releases =? 0)%nat; [reflexivity|].
    unfold findLatestRelease.
    destruct isPrerelease; rewrite find_all_false; try reflexivity;
      intros r Hr; rewrite (Hdrafts r Hr); apply andb_false_r.
  - intros r Hr. rewrite (Hdrafts r Hr). apply andb_false_r.
  - intros r Hr. unfold validRelease. now rewrite (Hdrafts r Hr).
Qed.

Lemma checkVersionAgainst_result (releases : list GitHubReleaseResponse)
  (version : jsstring) (isPrerelease : bool) :
  currentVersion (checkVersionAgainst releases version isPrerelease) = version /\
  latestRelease (checkVersionAgainst releases version isPrerelease)
    = option_map toRelease (findLatestRelease isPrerelease releases) /\
  latestVersion (checkVersionAgainst releases version isPrerelease)
    = option_map tag_name (findLatestRelease isPrerelease releases) /\
  (updateAvailable (checkVersionAgainst releases version isPrerelease) = true ->
   findLatestRelease isPrerelease releases <> None).
Proof.
  unfold checkVersionAgainst.
  destruct releases as [|r rs].
  - destruct isPrerelease; now repeat split.
  - cbn [List.length Nat.eqb].
    destruct (findLatestRelease isPrerelease (r :: rs)) as [x|];
      [|now repeat split].
    destruct (findCurrentRelease version (r :: rs)); now repeat split.
Qed.

(** X16. The shape of a [checkVersion] result: [currentVersion] echoes the
    version asked about, verbatim; [latestVersion] is the tag of
    [latestRelease] and is there exactly when it is; a reported update
    always comes with its release; and the release is of the class asked
    for, a prerelease if and only if [isPrerelease]. *)
Theorem checkVersion_result_shape (e : Env) (w : World)
  (version : jsstring) (isPrerelease : bool) (result : VersionCheckResult) :
  fst (checkVersion e w version isPrerelease) = Returned result ->
  currentVersion result = version /\
  latestVersion result = option_map Release.tagName (latestRelease result) /\
  (updateAvailable result = true -> latestRelease result <> None) /\
  (forall r, latestRelease result = Some r -> Release.prerelease r = isPrerelease).
Proof.
  unfold checkVersion.
  destruct (fetchAllReleases e w) as [[releases|m] w']; [|discriminate].
  intros [= <-].
  destruct (checkVersionAgainst_result releases version isPrerelease)
    as (Hcur & Hrel & Hver & Hupd).
  rewrite Hcur, Hrel, Hver.
  destruct (findLatestRelease isPrerelease releases) as [x|] eqn:Hx; simpl.
  - repeat split; try discriminate.
    intros r [= <-]. simpl. apply (findLatestRelease_qualifies _ _ _ Hx).
  - repeat split; try discriminate. intros H. now contradiction (Hupd H).
Qed.

Lemma find_pointwise {A} (f g : A -> bool) (l : list A) :
  (forall x, f x = g x) -> find f l = find g l.
Proof.
  intros H. induction l as [|x l IH]; [reflexivity|].
  simpl. now rewrite H, IH.
Qed.

Lemma find_validRelease_stable (releases : list GitHubReleaseResponse) :
  find (validRelease false) releases = findLatestRelease false releases.
Proof.
  unfold findLatestRelease, validRelease. apply find_pointwise.
  intros r. now destruct (draft r), (prerelease r).
Qed.

(** X17. The operations agree on one release list: the [latestRelease] of
    [checkVersion] is what [getLatestRelease()] returns when [isPrerelease]
    is false, and what [getLatestPrerelease()] returns when it is true. *)
Theorem checkVersion_agrees_with_getLatest (e : Env) (w : World)
  (version : jsstring) (isPrerelease : bool) (result : VersionCheckResult) :
  fst (checkVersion e w version isPrerelease) = Returned result ->
  (isPrerelease = false ->
   fst (getLatestRelease e w false) = Returned (latestRelease result)) /\
  (isPrerelease = true ->
   fst (getLatestPrerelease e w) = Returned (latestRelease result)).
Proof.
  rewrite getLatestRelease_of_fetch, getLatestPrerelease_of_fetch.
  unfold checkVersion.
  destruct (fetchAllReleases e w) as [[releases|m] w']; [|discriminate].
  intros [= <-]. simpl.
  rewrite (proj1 (proj2 (checkVersionAgainst_result releases version isPrerelease))).
  split; intros ->; [now rewrite find_validRelease_stable|reflexivity].
Qed.

Lemma find_any_release (releases : list GitHubReleaseResponse) :
  (find (validRelease true) releases = find (validRelease false) releases \/
   find (validRelease true) releases
     = find (fun r => prerelease r && negb (draft r)) releases) /\
  (find (validRelease true) releases = None <->
   find (validRelease false) releases = None /\
   find (fun r => prerelease r && negb (draft r)) releases = None).
Proof.
  induction releases as [|r rs [IHor IHnone]]; [simpl; tauto|].
  unfold validRelease in *. simpl.
  destruct (draft r), (prerelease r); simpl; intuition congruence.
Qed.

Lemma option_map_none {A B} (f : A -> B) (x : option A) :
  option_map f x = None <-> x = None.
Proof. destruct x; simpl; split; congruence. Qed.

(** X18. [getLatestRelease(true)] returns what [getLatestRelease()] or what
    [getLatestPrerelease()] returns (the one that comes first in the list),
    and [null] only when both return [null]. *)
Theorem getLatestRelease_with_prereleases (e : Env) (w : World)
  (any stable pre : option Release.t) :
  fst (getLatestRelease e w true) = Returned any ->
  fst (getLatestRelease e w false) = Returned stable ->
  fst (getLatestPrerelease e w) = Returned pre ->
  (any = stable \/ any = pre) /\
  (any = None <-> stable = None /\ pre = None).
Proof.
  rewrite !getLatestRelease_of_fetch, getLatestPrerelease_of_fetch.
  destruct (fetchAllReleases e w) as [[releases|m] w']; [|discriminate].
  simpl. intros [= <-] [= <-] [= <-].
  destruct (find_any_release releases) as [Hor Hnone].
  split.
  - destruct Hor as [-> | ->]; [now left|now right].
  - rewrite !option_map_none. exact Hnone.
Qed.

Lemma fetchAllReleases_returns_cached (e : Env) (w w' : World)
  (releases : list GitHubReleaseResponse) :
  fetchAllReleases e w = (Returned releases, w') ->
  cachedReleases (self w') = Some releases.
Proof.
  destruct (cacheFresh (self w) (now e)) eqn:Hfresh.
  - destruct (fetchAllReleases_fresh _ _ Hfresh) as (cached & Hc & ->).
    now intros [= <- <-].
  - rewrite (fetchAllReleases_stale _ _ Hfresh).
    destruct (reply e) as [m|st txt|m|body] eqn:Hreply;
      try (unfold fetchFromSource; rewrite Hreply; discriminate).
    intros H.
    assert (Hw : w' = snd (fetchFromSource e w)) by now rewrite H.
    assert (Hr : Returned releases = fst (fetchFromSource e w)) by now rewrite H.
    rewrite (fetchFromSource_ok _ _ _ Hreply) in Hr. injection Hr as ->.
    rewrite Hw. now rewrite (fetchFromSource_memory _ _ _ Hreply).
Qed.

Lemma latest_tag_is_current (releases : list GitHubReleaseResponse)
  (isPrerelease : bool) (x : GitHubReleaseResponse) :
  StronglySorted (descending publishedTime) releases ->
  findLatestRelease isPrerelease releases = Some x ->
  checkVersionAgainst releases (tag_name x) isPrerelease
  = {| updateAvailable := false; currentVersion := tag_name x;
       latestVersion := Some (tag_name x); latestRelease := Some (toRelease x) |}.
Proof.
  intros Hsorted Hx.
  rewrite (checkVersionAgainst_located _ _ _ _ Hx).
  assert (Hin : In x releases).
  { apply findLatestRelease_first in Hx. destruct Hx as (l1 & l2 & -> & _).
    apply in_elt. }
  rewrite findCurrentRelease_normalized.
  destruct (find _ releases) as [m|] eqn:Hm.
  - f_equal.
    pose proof (sorted_filter_head publishedTime _ _ _ Hsorted Hm x Hin) as Hle.
    specialize (Hle (proj2 (jsstring_eqb_eq _ _) eq_refl)).
    unfold isVersionOlder. unfold publishedTime in Hle.
    destruct (getTime (published_at m)), (getTime (published_at x));
      try reflexivity.
    apply Z.ltb_ge. exact Hle.
  - apply find_none with (x := x) in Hm; [|exact Hin].
    apply jsstring_eqb_neq in Hm. now contradiction Hm.
Qed.

(** X19. The latest release is up to date: on a list in descending order of
    publication (a sorted cache, a fetch of valid dates), asking
    [checkVersion] about the tag of the release that [getLatestRelease()]
    returns, or with [isPrerelease] the one that [getLatestPrerelease()]
    returns, reports no update, that release being the latest. *)
Theorem latest_release_needs_no_update (e : Env) (w : World)
  (isPrerelease : bool) (latest : Release.t) :
  cacheSorted (self w) ->
  (forall body, reply e = ResponseOk body -> Forall validDate body) ->
  fst (if isPrerelease then getLatestPrerelease e w else getLatestRelease e w false)
    = Returned (Some latest) ->
  fst (checkVersion e w (Release.tagName latest) isPrerelease)
    = Returned {| updateAvailable := false;
                  currentVersion := Release.tagName latest;
                  latestVersion := Some (Release.tagName latest);
                  latestRelease := Some latest |}.
Proof.
  intros Hinv Hvalid.
  pose proof (fetchAllReleases_cacheSorted e w Hinv Hvalid) as Hsorted.
  assert (Hlatest :
    fst (if isPrerelease then getLatestPrerelease e w else getLatestRelease e w false)
    = match fst (fetchAllReleases e w) with
      | Returned releases =>
          Returned (option_map toRelease (findLatestRelease isPrerelease releases))
      | Threw m =>
          Threw ((if isPrerelease then js "Failed to fetch prereleases: "
                  else js "Failed to fetch releases: ") ++ m)
      end).
  { destruct isPrerelease.
    - rewrite getLatestPrerelease_of_fetch.
      now destruct (fetchAllReleases e w) as [[releases|m] w'].
    - rewrite getLatestRelease_of_fetch.
      destruct (fst (fetchAllReleases e w)); [|reflexivity].
      now rewrite find_validRelease_stable. }
  rewrite Hlatest. clear Hlatest. unfold checkVersion.
  destruct (fetchAllReleases e w) as [[releases|m] w'] eqn:Hfetch; simpl;
    [|discriminate].
  destruct (findLatestRelease isPrerelease releases) as [x|] eqn:Hx; [|discriminate].
  intros [= <-]. f_equal.
  apply (latest_tag_is_current _ _ _) ; [|exact Hx].
  unfold cacheSorted in Hsorted. simpl in Hsorted.
  now rewrite (fetchAllReleases_returns_cached _ _ _ _ Hfetch) in Hsorted.
Qed.

Lemma fetchAllReleases_disk_unconfigured (e : Env) (w : World) :
  pathConfigured (cacheFilePath (self w)) = false ->
  disk (snd (fetchAllReleases e w)) = disk w.
Proof.
  intros Hpath. unfold fetchAllReleases, fetchFromSource, saveCacheToDisk.
  destruct (cachedReleases (self w)) as [cached|];
    [destruct (_ && _); [reflexivity|]|];
    destruct (reply e); simpl; try reflexivity; now rewrite Hpath.
Qed.

(** X20. Without a cache file path (none, or the empty string) the disk is
    never written: the cache file is as before after each operation and
    after [clearCache]. *)
Theorem no_path_no_write (e : Env) (w : World)
  (includePrerelease : bool) (currentVersion : jsstring) (isPrerelease : bool) :
  pathConfigured (cacheFilePath (self w)) = false ->
  disk (snd (getLatestRelease e w includePrerelease)) = disk w /\
  disk (snd (getLatestPrerelease e w)) = disk w /\
  disk (snd (checkVersion e w currentVersion isPrerelease)) = disk w /\
  disk (clearCache e w) = disk w.
Proof.
  intros Hpath.
  destruct (operations_world e w includePrerelease currentVersion isPrerelease)
    as (-> & -> & ->).
  rewrite (fetchAllReleases_disk_unconfigured _ _ Hpath).
  repeat split. unfold clearCache, saveCacheToDisk. simpl. now rewrite Hpath.
Qed.

Lemma fetchAllReleases_configuration (e : Env) (w : World) :
  sameConfiguration (self (snd (fetchAllReleases e w))) (self w).
Proof.
  destruct (cacheFresh (self w) (now e)) eqn:Hfresh.
  - destruct (fetchAllReleases_fresh _ _ Hfresh) as (cached & _ & ->).
    now repeat split.
  - rewrite (fetchAllReleases_stale _ _ Hfresh).
    destruct (reply e) as [m|st txt|m|body] eqn:Hreply;
      try (unfold fetchFromSource; rewrite Hreply; now repeat split).
    rewrite (fetchFromSource_memory _ _ _ Hreply). apply setCache_configuration.
Qed.

(** X21. One call, at most one request: each operation sends no request
    when the cache answers and exactly one otherwise (in particular when no
    cache is there), never a second one after a failure; and no operation
    changes [repo], [checkInterval], [cacheFilePath] or [token]. *)
Theorem one_request_per_call (e : Env) (w : World)
  (includePrerelease : bool) (currentVersion : jsstring) (isPrerelease : bool)
  (w' : World) :
  w' = snd (getLatestRelease e w includePrerelease) \/
  w' = snd (getLatestPrerelease e w) \/
  w' = snd (checkVersion e w currentVersion isPrerelease) ->
  requests w' = (if cacheFresh (self w) (now e) then requests w
                 else requestFor (self w) :: requests w) /\
  (cachedReleases (self w) = None -> requests w' = requestFor (self w) :: requests w) /\
  sameConfiguration (self w') (self w).
Proof.
  intros Hw'.
  destruct (operations_world e w includePrerelease currentVersion isPrerelease)
    as (H1 & H2 & H3).
  assert (w' = snd (fetchAllReleases e w)) as ->
    by (destruct Hw' as [->|[->| ->]]; assumption).
  clear H1 H2 H3 Hw'.
  assert (Hreq : requests (snd (fetchAllReleases e w))
                 = if cacheFresh (self w) (now e) then requests w
                   else requestFor (self w) :: requests w).
  { destruct (cacheFresh (self w) (now e)) eqn:Hfresh.
    - now destruct (fetchAllReleases_fresh _ _ Hfresh) as (cached & _ & ->).
    - rewrite (fetchAllReleases_stale _ _ Hfresh). apply fetchFromSource_requests. }
  split; [exact Hreq|]. split; [|apply fetchAllReleases_configuration].
  intros Hnone. rewrite Hreq. unfold cacheFresh. now rewrite Hnone.
Qed.

(** X22. Clearing twice is clearing once: a second [clearCache] under the
    same conditions leaves the fields, the cache file and the requests as
    the first left them. *)
Theorem clearCache_idempotent (e : Env) (w : World) :
  clearCache e (clearCache e w) = clearCache e w.
Proof.
  unfold clearCache, saveCacheToDisk, writeFileSync. simpl.
  destruct (pathConfigured (cacheFilePath (self w))) eqn:Hpath; simpl.
  - destruct (writeError e); simpl; rewrite Hpath; simpl; reflexivity.
  - rewrite Hpath. reflexivity.
Qed.

End FurtherProperties.

(* ===================================================================== *)
(** ** The further properties at work *)
(* ===================================================================== *)

#[local] Existing Instance isoDate.

Ltac descending_dates :=
  repeat constructor; unfold descending; vm_compute; discriminate.

Lemma sortedMockReleases_descending :
  StronglySorted (descending publishedTime) sortedMockReleases.
Proof. descending_dates. Defined.

Lemma testEnv_validDate (writeFails : bool) (body : list GitHubReleaseResponse) :
  reply (testEnv writeFails) = ResponseOk body -> Forall validDate body.
Proof. intros [= <-]. exact mockReleases_validDate. Defined.

(** The version [v1.5.0] of the tests, spelled [1.5.0] and [ V1.5.0 ]. *)
Lemma checkVersion_up_to_normalization_witness :
  snd (checkVersion (testEnv false) (freshWorld 0 None) (js "1.5.0") false)
    = snd (checkVersion (testEnv false) (freshWorld 0 None) (js " V1.5.0 ") false) /\
  match fst (checkVersion (testEnv false) (freshWorld 0 None) (js "1.5.0") false),
        fst (checkVersion (testEnv false) (freshWorld 0 None) (js " V1.5.0 ") false) with
  | Returned result, Returned result' =>
      sameVerdict result result' /\
      currentVersion result = js "1.5.0" /\ currentVersion result' = js " V1.5.0 "
  | Threw message, Threw message' => message = message'
  | _, _ => False
  end.
Proof.
  apply (checkVersion_up_to_normalization (testEnv false) (freshWorld 0 None)
           (js "1.5.0") (js " V1.5.0 ") false).
  reflexivity.
Defined.

Lemma isVersionOlder_strict_order_witness :
  isVersionOlder (js "2023-12-31T00:00:00Z") (js "2024-01-01T00:00:00Z") = true /\
  isVersionOlder (js "2024-01-01T00:00:00Z") (js "2023-12-31T00:00:00Z") = false /\
  isVersionOlder (js "2023-12-31T00:00:00Z") (js "2024-01-03T00:00:00Z") = true /\
  isVersionOlder (js "yesterday") (js "2024-01-03T00:00:00Z") = false /\
  isVersionOlder (js "2024-01-03T00:00:00Z") (js "yesterday") = false.
Proof.
  destruct (isVersionOlder_strict_order (js "2023-12-31T00:00:00Z")
              (js "2024-01-01T00:00:00Z") (js "2024-01-03T00:00:00Z"))
    as (_ & Hasym & Htrans & _).
  destruct (isVersionOlder_strict_order (js "yesterday")
              (js "2024-01-03T00:00:00Z") (js "yesterday"))
    as (_ & _ & _ & Hnan).
  split; [reflexivity|]. split; [now apply Hasym|]. split; [now apply Htrans|].
  now apply Hnan.
Defined.

Lemma fetch_caches_sorted_permutation_witness :
  exists releases,
    fst (fetchAllReleases (testEnv false) (freshWorld 60000 None)) = Returned releases /\
    Permutation releases mockReleases /\
    StronglySorted (descending publishedTime) releases /\
    cachedReleases (self (snd (getLatestRelease (testEnv false)
                                 (freshWorld 60000 None) false))) = Some releases /\
    lastFetchTime (self (snd (getLatestRelease (testEnv false)
                                (freshWorld 60000 None) false))) = 1704844800000.
Proof.
  destruct (fetch_caches_sorted_permutation (testEnv false) (freshWorld 60000 None)
              mockReleases false (js "v1.5.0") false eq_refl eq_refl)
    as (releases & Hfetch & Hperm & Hsorted & Hcache).
  exists releases. split; [exact Hfetch|]. split; [exact Hperm|].
  split; [exact (Hsorted mockReleases_validDate)|].
  apply Hcache. left. reflexivity.
Defined.


Lemma fetch_keeps_sorted_feed_witness :
  fst (fetchAllReleases (envReturning sortedMockReleases 1704844800000)
         (freshWorld 0 None)) = Returned sortedMockReleases /\
  cachedReleases (self (snd (fetchAllReleases
                               (envReturning sortedMockReleases 1704844800000)
                               (freshWorld 0 None)))) = Some sortedMockReleases.
Proof.
  apply (fetch_keeps_sorted_feed (envReturning sortedMockReleases 1704844800000)
           (freshWorld 0 None) sortedMockReleases).
  - reflexivity.
  - reflexivity.
  - repeat constructor; vm_compute; discriminate.
  - exact sortedMockReleases_descending.
Defined.

Lemma operations_keep_cache_sorted_witness :
  let w := snd (getLatestRelease (testEnv false) (freshWorld 60000 None) false) in
  cacheSorted (self w) /\
  cacheSorted (self (snd (checkVersion (testEnv false) w (js "v1.5.0") false))) /\
  cacheSorted (self (clearCache (testEnv false) w)).
Proof.
  intros w.
  destruct (operations_keep_cache_sorted (testEnv false) (freshWorld 60000 None)
              false (js "v1.5.0") false I (testEnv_validDate false))
    as (Hw & _).
  fold w in Hw.
  destruct (operations_keep_cache_sorted (testEnv false) w
              false (js "v1.5.0") false Hw (testEnv_validDate false))
    as (_ & _ & Hcheck & Hclear).
  split; [exact Hw|]. split; [exact Hcheck|exact Hclear].
Defined.

(** A second call one second later, the source having gone offline. *)
Lemma repeated_call_within_interval_witness :
  let w1 := snd (getLatestRelease (testEnv false) (freshWorld 60000 None) false) in
  let e2 := envOffline (1704844800000 + 1000) in
  getLatestRelease e2 w1 true
    = (fst (getLatestRelease (testEnv false) (freshWorld 60000 None) true), w1) /\
  getLatestPrerelease e2 w1
    = (fst (getLatestPrerelease (testEnv false) (freshWorld 60000 None)), w1) /\
  checkVersion e2 w1 (js "v1.5.0") false
    = (fst (checkVersion (testEnv false) (freshWorld 60000 None) (js "v1.5.0") false), w1).
Proof.
  intros w1 e2.
  apply (repeated_call_within_interval (testEnv false) e2 (freshWorld 60000 None) w1
           mockReleases true false (js "v1.5.0") (js "v1.5.0") false false).
  - reflexivity.
  - reflexivity.
  - reflexivity.
  - reflexivity.
  - left. reflexivity.
Defined.

Lemma saved_cache_loads_back_witness :
  exists n,
    typed (constructor testConfig
             (disk (snd (fetchAllReleases (testEnv false)
                           (freshWorld 60000 (Some cachePath)))))) = Some n /\
    cachedReleases n
      = cachedReleases (self (snd (fetchAllReleases (testEnv false)
                                     (freshWorld 60000 (Some cachePath))))) /\
    cachedReleases n = Some (Array_sort byPublishedDesc mockReleases) /\
    lastFetchTime n = 1704844800000 /\
    repo n = js "test/repo" /\ token n = None.
Proof.
  apply (saved_cache_loads_back (testEnv false) (freshWorld 60000 (Some cachePath))
           mockReleases testConfig); reflexivity.
Defined.

(** The test "should load cache from disk on construction": the second
    notifier, started a second later, does not fetch. *)
Lemma second_process_uses_saved_cache_witness :
  let w := freshWorld 60000 (Some cachePath) in
  let e2 := envOffline (1704844800000 + 1000) in
  exists w2,
    startWorld testConfig (disk (snd (fetchAllReleases (testEnv false) w))) = Some w2 /\
    getLatestRelease e2 w2 false = (fst (getLatestRelease (testEnv false) w false), w2) /\
    getLatestPrerelease e2 w2 = (fst (getLatestPrerelease (testEnv false) w), w2) /\
    checkVersion e2 w2 (js "v1.5.0") false
      = (fst (checkVersion (testEnv false) w (js "v1.5.0") false), w2) /\
    requests w2 = [].
Proof.
  intros w e2.
  apply (second_process_uses_saved_cache (testEnv false) e2 w mockReleases testConfig
           false (js "v1.5.0") false); reflexivity.
Defined.

(** The test "should clear disk cache when clearCache is called", and the
    notifier that starts on the file afterwards. *)
Lemma cleared_file_loads_as_empty_entry_witness :
  let w := snd (getLatestRelease (testEnv false)
                  (freshWorld 60000 (Some cachePath)) false) in
  cachedReleases (self (clearCache (testEnv false) w)) = None /\
  exists n,
    typed (constructor testConfig (disk (clearCache (testEnv false) w))) = Some n /\
    cachedReleases n = Some [] /\ lastFetchTime n = 0.
Proof.
  intros w.
  apply (cleared_file_loads_as_empty_entry (testEnv false) w testConfig); reflexivity.
Defined.

(** The tests "should handle GitHub API errors". *)
Lemma failed_fetch_is_wrapped_witness :
  let w := freshWorld 60000 (Some cachePath) in
  let e := envNotFound 1704844800000 in
  getLatestRelease e w false
    = (Threw (js "Failed to fetch releases: GitHub API error: 404 Not Found"),
       afterRequest w) /\
  getLatestPrerelease e w
    = (Threw (js "Failed to fetch prereleases: GitHub API error: 404 Not Found"),
       afterRequest w) /\
  checkVersion e w (js "v1.5.0") false
    = (Threw (js "Failed to check version: GitHub API error: 404 Not Found"),
       afterRequest w).
Proof.
  intros w e.
  apply (failed_fetch_is_wrapped e w false (js "v1.5.0") false).
  - reflexivity.
  - intros body. discriminate.
Defined.


(** A feed whose only release is the draft [v1.4.0]. *)
Lemma unpublished_feed_gives_nothing_witness :
  let e := envReturning feedOfDrafts 1704844800000 in
  let w := freshWorld 60000 None in
  getLatestRelease e w true = (Returned None, snd (fetchAllReleases e w)) /\
  getLatestPrerelease e w = (Returned None, snd (fetchAllReleases e w)) /\
  checkVersion e w (js "v1.4.0") false
    = (Returned (noRelease (js "v1.4.0")), snd (fetchAllReleases e w)).
Proof.
  intros e w.
  apply (unpublished_feed_gives_nothing e w _ feedOfDrafts true (js "v1.4.0") false).
  - reflexivity.
  - intros r [<-|[]]. reflexivity.
Defined.

Lemma checkVersion_result_shape_witness :
  let result := checkVersionAgainst sortedMockReleases (js "v1.5.0") true in
  currentVersion result = js "v1.5.0" /\
  latestVersion result = option_map Release.tagName (latestRelease result) /\
  latestRelease result <> None /\
  Release.prerelease (toRelease v2_0_0_beta_1) = true.
Proof.
  intros result.
  destruct (checkVersion_result_shape (testEnv false) (freshWorld 0 None)
              (js "v1.5.0") true result eq_refl)
    as (Hcur & Htag & Hupd & Hclass).
  split; [exact Hcur|]. split; [exact Htag|]. split.
  - apply Hupd. reflexivity.
  - apply Hclass. reflexivity.
Defined.

Lemma checkVersion_agrees_with_getLatest_witness :
  fst (getLatestRelease (testEnv false) (freshWorld 0 None) false)
    = Returned (latestRelease (checkVersionAgainst sortedMockReleases (js "v1.5.0") false)) /\
  fst (getLatestPrerelease (testEnv false) (freshWorld 0 None))
    = Returned (latestRelease (checkVersionAgainst sortedMockReleases (js "v1.5.0") true)).
Proof.
  split.
  - assert (H : fst (checkVersion (testEnv false) (freshWorld 0 None) (js "v1.5.0") false)
                = Returned (checkVersionAgainst sortedMockReleases (js "v1.5.0") false))
      by reflexivity.
    apply (proj1 (checkVersion_agrees_with_getLatest _ _ _ _ _ H)). reflexivity.
  - assert (H : fst (checkVersion (testEnv false) (freshWorld 0 None) (js "v1.5.0") true)
                = Returned (checkVersionAgainst sortedMockReleases (js "v1.5.0") true))
      by reflexivity.
    apply (proj2 (checkVersion_agrees_with_getLatest _ _ _ _ _ H)). reflexivity.
Defined.

Lemma getLatestRelease_with_prereleases_witness :
  (Some (toRelease v2_0_0) = Some (toRelease v2_0_0) \/
   Some (toRelease v2_0_0) = Some (toRelease v2_0_0_beta_1)) /\
  (Some (toRelease v2_0_0) = None <->
   Some (toRelease v2_0_0) = None /\ Some (toRelease v2_0_0_beta_1) = None).
Proof.
  apply (getLatestRelease_with_prereleases (testEnv false) (freshWorld 0 None)
           (Some (toRelease v2_0_0)) (Some (toRelease v2_0_0))
           (Some (toRelease v2_0_0_beta_1))); reflexivity.
Defined.

(** The test "should check against prereleases when isPrerelease is true":
    [v2.0.0-beta.1] is the latest prerelease, and up to date. *)
Lemma latest_release_needs_no_update_witness :
  fst (checkVersion (testEnv false) (freshWorld 0 None)
         (Release.tagName (toRelease v2_0_0_beta_1)) true)
    = Returned {| updateAvailable := false;
                  currentVersion := Release.tagName (toRelease v2_0_0_beta_1);
                  latestVersion := Some (Release.tagName (toRelease v2_0_0_beta_1));
                  latestRelease := Some (toRelease v2_0_0_beta_1) |}.
Proof.
  apply (latest_release_needs_no_update (testEnv false) (freshWorld 0 None) true
           (toRelease v2_0_0_beta_1)).
  - exact I.
  - exact (testEnv_validDate false).
  - reflexivity.
Defined.

(** A notifier whose [cacheFilePath] is the empty string. *)
Lemma no_path_no_write_witness :
  let w := freshWorld 60000 (Some []) in
  disk (snd (getLatestRelease (testEnv false) w false)) = FileMissing /\
  disk (snd (getLatestPrerelease (testEnv false) w)) = FileMissing /\
  disk (snd (checkVersion (testEnv false) w (js "v1.5.0") false)) = FileMissing /\
  disk (clearCache (testEnv false) w) = FileMissing.
Proof.
  intros w.
  apply (no_path_no_write (testEnv false) w false (js "v1.5.0") false).
  reflexivity.
Defined.

Lemma one_request_per_call_witness :
  let w := freshWorld 60000 None in
  let w' := snd (getLatestRelease (envNotFound 1704844800000) w false) in
  requests w' = [requestFor (self w)] /\
  sameConfiguration (self w') (self w).
Proof.
  intros w w'.
  destruct (one_request_per_call (envNotFound 1704844800000) w false (js "v1.5.0")
              false w' (or_introl eq_refl)) as (_ & Hone & Hcfg).
  split; [apply Hone; reflexivity|exact Hcfg].
Defined.
